(** * KanbanZone API client: paginated fetch, field lookup, filters, WIP check

    A shallow embedding of [scripts/kanbanzone_api.py].  The script works on
    decoded JSON documents with Python's dynamic operations ([.get], [in],
    [or], truthiness, [.lower()], [str]); these are modelled first, with the
    exceptions they raise, and the functions of the script are then written
    over them statement by statement.

    Modelling scope: JSON numbers are integers (the API counts cards and WIP
    limits), and a string is a sequence of code points below 256, on which
    [str.lower] and [repr] are the ones defined here. *)

From Stdlib Require Import Ascii.
From stdpp Require Import base option list strings gmap pretty.

(** ** JSON documents as [json.loads] returns them *)

#[local] Set Warnings "-register-all".

Inductive json : Type :=
| JNull                                   (* None *)
| JBool (b : bool)
| JNum (z : Z)
| JStr (s : string)
| JArr (l : list json)
| JObj (d : list (string * json)).        (* dict, in insertion order *)

Abbreviation dict := (list (string * json)).

(** ** Outcomes of Python code *)

Inductive exn : Type :=
| AttributeError
| TypeError
| KeyError
| IndexError
| SystemExit (code : Z).

(** [NoFuel] is the outcome of a [while] loop cut off by the fuel of the
    model; code without a [while] never produces it. *)
Inductive outcome (A : Type) : Type :=
| Ok (a : A)
| Raise (e : exn)
| NoFuel.
Arguments Ok {A} a.
Arguments Raise {A} e.
Arguments NoFuel {A}.

Definition obind {A B} (m : outcome A) (k : A -> outcome B) : outcome B :=
  match m with
  | Ok a => k a
  | Raise e => Raise e
  | NoFuel => NoFuel
  end.

Declare Scope py_scope.
Delimit Scope py_scope with py.
Notation "x <- m ;; k" := (obind m (fun x => k))
  (at level 100, m at next level, right associativity) : py_scope.
Open Scope py_scope.

(** ** Python primitives on JSON values *)

Module Py.

(** [bool(v)] *)
Definition truthy (v : json) : bool :=
  match v with
  | JNull => false
  | JBool b => b
  | JNum z => negb (Z.eqb z 0)
  | JStr s => negb (String.eqb s "")
  | JArr l => match l with [] => false | _ => true end
  | JObj d => match d with [] => false | _ => true end
  end.

(** [a or b] *)
Definition or_else (a b : json) : json := if truthy a then a else b.

(** [d[k]] lookup in an insertion-ordered dict *)
Fixpoint lookup (k : string) (d : dict) : option json :=
  match d with
  | [] => None
  | (k', v) :: d' => if String.eqb k' k then Some v else lookup k d'
  end.

(** [d[k] = v]: an existing key keeps its place, a new one goes last *)
Fixpoint set (k : string) (v : json) (d : dict) : dict :=
  match d with
  | [] => [(k, v)]
  | (k', v') :: d' =>
      if String.eqb k' k then (k', v) :: d' else (k', v') :: set k v d'
  end.

(** [x.get(k, default)]; only a dict has [get] *)
Definition get (x : json) (k : string) (default : json) : outcome json :=
  match x with
  | JObj d => Ok (from_option id default (lookup k d))
  | _ => Raise AttributeError
  end.

(** [q in s] on strings *)
Fixpoint substring_of (q s : string) : bool :=
  String.prefix q s ||
  match s with
  | EmptyString => false
  | String _ s' => substring_of q s'
  end.

Definition is_str (s : string) (v : json) : bool :=
  match v with JStr s' => String.eqb s' s | _ => false end.

(** [k in x] for a string [k] *)
Definition contains (x : json) (k : string) : outcome bool :=
  match x with
  | JObj d => Ok (bool_decide (is_Some (lookup k d)))
  | JArr l => Ok (existsb (is_str k) l)
  | JStr s => Ok (substring_of k s)
  | _ => Raise TypeError
  end.

(** [x[k]] for a string [k] *)
Definition getitem (x : json) (k : string) : outcome json :=
  match x with
  | JObj d => match lookup k d with Some v => Ok v | None => Raise KeyError end
  | _ => Raise TypeError
  end.

(** [x[0]] *)
Definition first (x : json) : outcome json :=
  match x with
  | JArr (v :: _) => Ok v
  | JStr (String c _) => Ok (JStr (String c ""))
  | JArr [] | JStr EmptyString => Raise IndexError
  | JObj _ => Raise KeyError
  | _ => Raise TypeError
  end.

Definition chars (s : string) : list json :=
  (fun c => JStr (String c "")) <$> String.list_ascii_of_string s.

(** [for v in x]: the values the loop sees *)
Definition iter (x : json) : outcome (list json) :=
  match x with
  | JArr l => Ok l
  | JStr s => Ok (chars s)
  | JObj d => Ok ((fun kv => JStr kv.1) <$> d)
  | _ => Raise TypeError
  end.

(** [acc.extend(more)]; only a list has [extend] *)
Definition extend (acc more : json) : outcome json :=
  match acc with
  | JArr l => items <- iter more;; Ok (JArr (l ++ items))
  | _ => Raise AttributeError
  end.

(** [isinstance(x, dict)] *)
Definition is_dict (x : json) : bool :=
  match x with JObj _ => true | _ => false end.

(** [s.lower()] on code points below 256 *)
Definition lower_char (c : ascii) : ascii :=
  let n := N_of_ascii c in
  if (N.leb 65 n && N.leb n 90)
     || (N.leb 192 n && N.leb n 222 && negb (N.eqb n 215))
  then ascii_of_N (n + 32) else c.

Fixpoint lower (s : string) : string :=
  match s with
  | EmptyString => EmptyString
  | String c s' => String (lower_char c) (lower s')
  end.

(** [x.lower()]; only a string has [lower] *)
Definition lower_of (x : json) : outcome string :=
  match x with
  | JStr s => Ok (lower s)
  | _ => Raise AttributeError
  end.

(** [repr(s)] of a string *)
Definition squote : ascii := ascii_of_N 39.
Definition dquote : ascii := ascii_of_N 34.
Definition backslash : ascii := ascii_of_N 92.

Definition hex_digit (n : N) : ascii :=
  if N.ltb n 10 then ascii_of_N (48 + n) else ascii_of_N (87 + n).

Definition repr_char (quote c : ascii) : string :=
  let n := N_of_ascii c in
  if Ascii.eqb c backslash then String backslash (String backslash "")
  else if Ascii.eqb c quote then String backslash (String quote "")
  else if N.eqb n 9 then String backslash "t"
  else if N.eqb n 10 then String backslash "n"
  else if N.eqb n 13 then String backslash "r"
  else if N.ltb n 32 || (N.leb 127 n && N.leb n 160) || N.eqb n 173
  then String backslash
         (String "x" (String (hex_digit (n / 16)) (String (hex_digit (n mod 16)) "")))
  else String c "".

Definition has_char (c : ascii) (s : string) : bool :=
  existsb (Ascii.eqb c) (String.list_ascii_of_string s).

Definition repr_str (s : string) : string :=
  let quote := if has_char squote s && negb (has_char dquote s)
               then dquote else squote in
  String quote
    (String.concat "" (repr_char quote <$> String.list_ascii_of_string s)
     +:+ String quote "").

(** [repr(v)] *)
Fixpoint repr (v : json) : string :=
  match v with
  | JNull => "None"
  | JBool b => if b then "True" else "False"
  | JNum z => pretty z
  | JStr s => repr_str s
  | JArr l => "[" +:+ String.concat ", " (map repr l) +:+ "]"
  | JObj d =>
      "{" +:+ String.concat ", "
                (map (fun kv => repr_str kv.1 +:+ ": " +:+ repr kv.2) d)
      +:+ "}"
  end.

(** [str(v)], also what an f-string field prints *)
Definition str (v : json) : string :=
  match v with
  | JStr s => s
  | _ => repr v
  end.

(** [n > v] for an int [n]: ints and bools compare, the rest raises *)
Definition int_gt (n : Z) (v : json) : outcome bool :=
  match v with
  | JNum z => Ok (Z.ltb z n)
  | JBool b => Ok (Z.ltb (if b then 1 else 0) n)
  | _ => Raise TypeError
  end.

(** [n < v] for an int [n] *)
Definition int_lt (n : Z) (v : json) : outcome bool :=
  match v with
  | JNum z => Ok (Z.ltb n z)
  | JBool b => Ok (Z.ltb n (if b then 1 else 0))
  | _ => Raise TypeError
  end.

(** Keys of a Python dict: hashable values up to [==], under which
    [True == 1] and [False == 0]. *)
Inductive key : Type :=
| KNone
| KInt (z : Z)
| KStr (s : string).

(** [hash(v)]: lists and dicts are unhashable *)
Definition hash (v : json) : outcome key :=
  match v with
  | JNull => Ok KNone
  | JBool b => Ok (KInt (if b then 1 else 0))
  | JNum z => Ok (KInt z)
  | JStr s => Ok (KStr s)
  | _ => Raise TypeError
  end.

End Py.

#[global] Instance key_eq_dec : EqDecision Py.key.
Proof. solve_decision. Defined.

#[global] Instance key_countable : Countable Py.key.
Proof.
  refine (inj_countable'
            (fun k => match k with
                      | Py.KNone => inl ()
                      | Py.KInt z => inr (inl z)
                      | Py.KStr s => inr (inr s)
                      end)
            (fun x => match x with
                      | inl _ => Py.KNone
                      | inr (inl z) => Py.KInt z
                      | inr (inr s) => Py.KStr s
                      end) _).
  intros []; reflexivity.
Defined.

(** ** Field lookup *)

(** [get_card_field(card, field)] *)
Definition get_card_field (card : json) (field : string) : outcome json :=
  present <- Py.contains card field;;
  if present then Py.getitem card field
  else
    card_item <- Py.get card "CardItem" (JObj []);;
    Py.get card_item field JNull.

(** ** Client-side filters *)

(** Truth value of an optional command-line string: [None] and the empty
    string are false. *)
Definition given (o : option string) : bool :=
  match o with
  | Some s => negb (String.eqb s "")
  | None => false
  end.

(** [o and test(o)], the condition of an [if ...: continue] *)
Definition when_given (o : option string) (test : string -> outcome bool)
  : outcome bool :=
  match o with
  | Some s => if String.eqb s "" then Ok false else test s
  | None => Ok false
  end.

(** [(get_card_field(card, field) or "").lower() != wanted.lower()] *)
Definition differs_lower (card : json) (field wanted : string) : outcome bool :=
  v <- get_card_field card field;;
  s <- Py.lower_of (Py.or_else v (JStr ""));;
  Ok (negb (String.eqb s (Py.lower wanted))).

(** [str(get_card_field(card, "priority") or "") != str(priority)] *)
Definition differs_str (card : json) (field wanted : string) : outcome bool :=
  v <- get_card_field card field;;
  Ok (negb (String.eqb (Py.str (Py.or_else v (JStr ""))) wanted)).

(** The query test of [filter_cards]: [q not in title and q not in desc] *)
Definition query_misses (card : json) (query : string) : outcome bool :=
  let q := Py.lower query in
  t <- get_card_field card "title";;
  title <- Py.lower_of (Py.or_else t (JStr ""));;
  d <- get_card_field card "description";;
  desc <- Py.lower_of (Py.or_else d (JStr ""));;
  Ok (negb (Py.substring_of q title) && negb (Py.substring_of q desc)).

Notation "'continue_if' c ;; k" := (obind c (fun b : bool => if b then Ok true else k))
  (at level 100, c at next level, right associativity) : py_scope.

(** The body of the loop of [filter_cards]: [true] when the card is skipped
    by a [continue], [false] when it reaches [result.append(card)]. *)
Definition skipped (card : json) (label owner column priority : option string)
    (blocked : bool) (query : option string) : outcome bool :=
  continue_if when_given label (differs_lower card "label");;
  continue_if when_given owner (differs_lower card "owner");;
  continue_if when_given column (differs_lower card "columnTitle");;
  continue_if when_given priority (differs_str card "priority");;
  continue_if (if blocked
               then v <- get_card_field card "blocked";; Ok (negb (Py.truthy v))
               else Ok false);;
  continue_if when_given query (query_misses card);;
  Ok false.

Fixpoint filter_loop (cards : list json) (label owner column priority : option string)
    (blocked : bool) (query : option string) (result : list json)
  : outcome (list json) :=
  match cards with
  | [] => Ok result
  | card :: rest =>
      skip <- skipped card label owner column priority blocked query;;
      filter_loop rest label owner column priority blocked query
        (if skip then result else result ++ [card])
  end.

(** [filter_cards(cards, label, owner, column, priority, blocked, query)];
    the command line gives [priority] as a string. *)
Definition filter_cards (cards : json) (label owner column priority : option string)
    (blocked : bool) (query : option string) : outcome (list json) :=
  items <- Py.iter cards;;
  filter_loop items label owner column priority blocked query [].

(** ** WIP check: counting and report *)

(** The loop "Count cards per column" of [cmd_wip_check] *)
Fixpoint count_columns (cards : list json) (col_counts : gmap Py.key nat)
  : outcome (gmap Py.key nat) :=
  match cards with
  | [] => Ok col_counts
  | card :: rest =>
      cid <- get_card_field card "columnId";;
      if Py.truthy cid then
        k <- Py.hash cid;;
        count_columns rest (<[k := default 0 (col_counts !! k) + 1]> col_counts)
      else count_columns rest col_counts
  end.

(** The two tests that fill [violations] *)
Definition violations_of (current : nat) (min_wip max_wip : json)
  : outcome (list json) :=
  over <- (if Py.truthy max_wip then Py.int_gt (Z.of_nat current) max_wip
           else Ok false);;
  let violations :=
    if over
    then [JStr ("over max (" +:+ pretty current +:+ "/" +:+ Py.str max_wip +:+ ")")]
    else [] in
  under <- (if Py.truthy min_wip then Py.int_lt (Z.of_nat current) min_wip
            else Ok false);;
  Ok (if under
      then violations ++
           [JStr ("under min (" +:+ pretty current +:+ "/" +:+ Py.str min_wip +:+ ")")]
      else violations).

(** The body of the loop "Build WIP report": [None] for a column skipped by
    [continue], the appended entry otherwise. *)
Definition column_entry (col_counts : gmap Py.key nat) (col_wrapper : json)
  : outcome (option json) :=
  col <- Py.get col_wrapper "ColumnItem" col_wrapper;;
  type <- Py.get col "type" JNull;;
  if negb (Py.is_str "CARD" type) then Ok None
  else
    board_title <- Py.get col "boardTitle" JNull;;
    col_id <- Py.get col "columnId" board_title;;
    k <- Py.hash col_id;;
    let current := default 0 (col_counts !! k) in
    min_wip <- Py.get col "minWIP" JNull;;
    max_wip <- Py.get col "maxWIP" JNull;;
    violations <- violations_of current min_wip max_wip;;
    title <- Py.get col "title" JNull;;
    state <- Py.get col "columnState" JNull;;
    Ok (Some (JObj [("columnId", col_id);
                    ("columnTitle", title);
                    ("columnState", state);
                    ("currentCards", JNum (Z.of_nat current));
                    ("minWIP", min_wip);
                    ("maxWIP", max_wip);
                    ("violations", JArr violations)])).

Fixpoint wip_report (columns : list json) (col_counts : gmap Py.key nat)
    (report : list json) : outcome (list json) :=
  match columns with
  | [] => Ok report
  | col_wrapper :: rest =>
      entry <- column_entry col_counts col_wrapper;;
      wip_report rest col_counts
        (match entry with Some e => report ++ [e] | None => report end)
  end.

(** ** The process: environment, network, standard output *)

(** What [urlopen] is asked: the query holds the parameters that are not
    [None]; the credential header is the same on every request and is left
    out. *)
Record request : Type := {
  method : string;
  path : string;
  params : dict;
  body : option json;
}.

(** [server] is the other side of [urlopen]: the decoded answer to a request,
    given the requests answered before it.  An HTTP or network failure is the
    error document [api_request] makes of it ([{"error": true, ...}]). *)
Record world : Type := {
  api_key : option string;                    (* KANBANZONE_API_KEY *)
  default_board : option string;              (* KANBANZONE_BOARD_ID *)
  server : list request -> request -> json;
  sent : list request;                        (* requests issued so far *)
  stdout : list json;                         (* documents printed so far *)
}.

Definition M (A : Type) : Type := world -> outcome A * world.

Definition retM {A} (a : A) : M A := fun w => (Ok a, w).

Definition bindM {A B} (m : M A) (k : A -> M B) : M B :=
  fun w =>
    match m w with
    | (Ok a, w') => k a w'
    | (Raise e, w') => (Raise e, w')
    | (NoFuel, w') => (NoFuel, w')
    end.

Definition liftM {A} (o : outcome A) : M A := fun w => (o, w).

Notation "x <~ m ;; k" := (bindM m (fun x => k))
  (at level 100, m at next level, right associativity) : py_scope.

Definition print (doc : json) (w : world) : world :=
  {| api_key := api_key w; default_board := default_board w;
     server := server w; sent := sent w; stdout := stdout w ++ [doc] |}.

(** [output(data)] *)
Definition output (data : json) : M unit := fun w => (Ok (), print data w).

Definition error_doc (message : string) : json :=
  JObj [("error", JBool true); ("message", JStr message)].

(** [error_exit(message)] *)
Definition error_exit {A} (message : string) : M A :=
  fun w => (Raise (SystemExit 1), print (error_doc message) w).

(** [get_api_key()]; the Base64 encoding of the key is not modelled *)
Definition get_api_key : M string :=
  fun w =>
    if given (api_key w) then (Ok (default "" (api_key w)), w)
    else error_exit "KANBANZONE_API_KEY environment variable is not set" w.

(** [urlopen(req)] with the decoding of the answer *)
Definition urlopen (req : request) : M json :=
  fun w =>
    (Ok (server w (sent w) req),
     {| api_key := api_key w; default_board := default_board w;
        server := server w; sent := sent w ++ [req]; stdout := stdout w |}).

Definition not_none (kv : string * json) : bool :=
  match kv.2 with JNull => false | _ => true end.

(** [api_request(method, path, params, body)] *)
Definition api_request (method path : string) (params : option dict)
    (body : option json) : M json :=
  _ <~ get_api_key;;
  let filtered := match params with
                  | Some p => List.filter not_none p
                  | None => []
                  end in
  urlopen {| method := method; path := path; params := filtered; body := body |}.

(** [get_default_board()] and [require_board(args)], on [args.board] *)
Definition require_board (board : option string) : M string :=
  fun w =>
    let board := if given board then board else default_board w in
    if given board then (Ok (default "" board), w)
    else error_exit "Board ID required. Use --board or set KANBANZONE_BOARD_ID" w.

(** ** Pagination *)

(** The [while] loop of [fetch_all_cards]; each test of its condition takes
    one unit of fuel. *)
Fixpoint fetch_pages (fuel : nat) (params : dict) (cards_data all_cards : json)
    (page : nat) : M json :=
  match fuel with
  | 0 => liftM NoFuel
  | S fuel =>
      has_more <~ liftM (Py.get cards_data "hasMore" JNull);;
      if Py.truthy has_more then
        let params := Py.set "page" (JNum (Z.of_nat page)) params in
        cards_data <~ api_request "GET" "/cards" (Some params) None;;
        err <~ liftM (Py.get cards_data "error" JNull);;
        if Py.truthy err then retM all_cards
        else
          cards <~ liftM (Py.get cards_data "cards" (JArr []));;
          all_cards <~ liftM (Py.extend all_cards cards);;
          fetch_pages fuel params cards_data all_cards (page + 1)
      else retM all_cards
  end.

Definition base_params (board : json) (include_archived : bool) : dict :=
  let params := [("board", board); ("count", JNum 100)] in
  if include_archived then Py.set "includeArchived" (JStr "true") params
  else params.

(** [fetch_all_cards(board, include_archived)] *)
Definition fetch_all_cards (board : json) (include_archived : bool) (fuel : nat)
  : M json :=
  let params := base_params board include_archived in
  cards_data <~ api_request "GET" "/cards" (Some params) None;;
  err <~ liftM (Py.get cards_data "error" JNull);;
  if Py.truthy err then retM cards_data
  else
    all_cards <~ liftM (Py.get cards_data "cards" (JArr []));;
    fetch_pages fuel params cards_data all_cards 2.

(** [isinstance(x, dict) and x.get("error")] *)
Definition is_error (x : json) : outcome bool :=
  if Py.is_dict x then e <- Py.get x "error" JNull;; Ok (Py.truthy e)
  else Ok false.

(** ** Subcommands *)

(** The fields of the argparse namespace that the handlers below read *)
Record args : Type := {
  arg_board : option string;
  arg_query : option string;
  arg_label : option string;
  arg_owner : option string;
  arg_priority : option string;
  arg_blocked : bool;
  arg_include_archived : bool;
}.

(** The loop over the boards of [cmd_search_cards] *)
Fixpoint search_boards (a : args) (fuel : nat) (boards : list json)
    (all_results : list json) : M (list json) :=
  match boards with
  | [] => retM all_results
  | board_item :: rest =>
      bi <~ liftM (Py.get board_item "BoardItem" board_item);;
      board_id <~ liftM (Py.get bi "publicId" JNull);;
      archived <~ liftM (Py.get bi "isArchived" JNull);;
      if Py.truthy archived then search_boards a fuel rest all_results
      else
        cards <~ fetch_all_cards board_id (arg_include_archived a) fuel;;
        failed <~ liftM (is_error cards);;
        if failed then search_boards a fuel rest all_results
        else
          filtered <~ liftM (filter_cards cards (arg_label a) (arg_owner a) None
                               (arg_priority a) (arg_blocked a) (arg_query a));;
          search_boards a fuel rest (all_results ++ filtered)
  end.

(** The test that guards [cmd_search_cards] *)
Definition nothing_to_search (a : args) : bool :=
  negb (given (arg_query a))
  && negb (given (arg_label a) || given (arg_owner a)
           || given (arg_priority a) || arg_blocked a).

Definition search_usage : string :=
  "Provide --query and/or filter flags (--label, --owner, --priority, --blocked).".

(** [cmd_search_cards(args)] after its guard *)
Definition search_all (a : args) (fuel : nat) : M unit :=
  boards_data <~ api_request "GET" "/boards" None None;;
  err <~ liftM (Py.get boards_data "error" JNull);;
  if Py.truthy err then output boards_data
  else
    boards <~ liftM (b <- Py.get boards_data "boards" (JArr []);; Py.iter b);;
    all_results <~ search_boards a fuel boards [];;
    output (JObj [("count", JNum (Z.of_nat (length all_results)));
                  ("cards", JArr all_results)]).

(** [cmd_search_cards(args)] *)
Definition cmd_search_cards (a : args) (fuel : nat) : M unit :=
  if nothing_to_search a then error_exit search_usage
  else search_all a fuel.

(** [cmd_wip_check(args)] *)
Definition cmd_wip_check (a : args) (fuel : nat) : M unit :=
  board <~ require_board (arg_board a);;
  board_data <~ api_request "GET" ("/board/" +:+ board)
                  (Some [("includeColumns", JStr "true")]) None;;
  err <~ liftM (Py.get board_data "error" JNull);;
  if Py.truthy err then output board_data
  else
    all_cards <~ fetch_all_cards (JStr board) false fuel;;
    failed <~ liftM (is_error all_cards);;
    if failed then output all_cards
    else
      cards <~ liftM (Py.iter all_cards);;
      col_counts <~ liftM (count_columns cards ∅);;
      boards <~ liftM (Py.get board_data "boards" (JArr []));;
      columns <~ liftM (if Py.truthy boards
                        then b0 <- Py.first boards;;
                             bi <- Py.get b0 "BoardItem" b0;;
                             Py.get bi "columns" (JArr [])
                        else Ok (JArr []));;
      cols <~ liftM (Py.iter columns);;
      report <~ liftM (wip_report cols col_counts []);;
      output (JObj [("board", JStr board); ("columns", JArr report)]).

(** ** Text of the command line *)

Module Text.

(** [c.isspace()] on code points below 256 *)
Definition is_space (c : ascii) : bool :=
  let n := N_of_ascii c in
  (N.leb 9 n && N.leb n 13) || (N.leb 28 n && N.leb n 32)
  || N.eqb n 133 || N.eqb n 160.

(** [s.lstrip()] *)
Fixpoint lstrip (s : string) : string :=
  match s with
  | EmptyString => EmptyString
  | String c s' => if is_space c then lstrip s' else s
  end.

(** [s.strip()] *)
Definition strip (s : string) : string :=
  String.rev (lstrip (String.rev (lstrip s))).

(** [head, tail = s.split(sep, 1)] for a string [s] that contains [sep]:
    the text before the first [sep] and the text after it.  (On a string
    without [sep], where Python's unpacking fails, the pair is [(s, "")];
    the script splits only after testing [sep in s].) *)
Fixpoint split_once (sep : ascii) (s : string) : string * string :=
  match s with
  | EmptyString => (EmptyString, EmptyString)
  | String c s' =>
      if Ascii.eqb c sep then (EmptyString, s')
      else let (head, tail) := split_once sep s' in (String c head, tail)
  end.

End Text.

(** ** Custom fields *)

Definition custom_field_error (item : string) : string :=
  "Invalid custom field format: '" +:+ item +:+ "'. Use 'Label=Value'.".

(** The loop of [parse_custom_fields] *)
Fixpoint parse_fields_loop (raw_list : list string) (fields : list json)
  : M (list json) :=
  match raw_list with
  | [] => retM fields
  | item :: rest =>
      if negb (Py.substring_of "=" item) then error_exit (custom_field_error item)
      else
        let (label, value) := Text.split_once "=" item in
        parse_fields_loop rest
          (fields ++ [JObj [("label", JStr (Text.strip label));
                            ("value", JStr (Text.strip value))]])
  end.

(** [parse_custom_fields(raw_list)] *)
Definition parse_custom_fields (raw_list : list string) : M (list json) :=
  parse_fields_loop raw_list [].

(** ** The other subcommands *)

(** [if value: body[key] = value], for an optional string argument *)
Definition set_given (key : string) (value : option string) (body : dict) : dict :=
  if given value then Py.set key (JStr (default "" value)) body else body.

(** [if flag: params[key] = "true"] *)
Definition set_flag (key : string) (flag : bool) (params : dict) : dict :=
  if flag then Py.set key (JStr "true") params else params.

(** A repeatable flag ([action="append"]): [None] when the flag is absent
    and a non-empty list otherwise; the empty list stands for [None]. *)
Definition set_watchers (watcher : list string) (body : dict) : dict :=
  match watcher with
  | [] => body
  | _ => Py.set "watchers" (JArr (JStr <$> watcher)) body
  end.

(** [if args.custom_field: body["customFields"] = parse_custom_fields(...)] *)
Definition set_custom_fields (custom_field : list string) (body : dict) : M dict :=
  match custom_field with
  | [] => retM body
  | _ => fields <~ parse_custom_fields custom_field;;
         retM (Py.set "customFields" (JArr fields) body)
  end.

(** [f"/card/{args.id}"] *)
Definition card_path (id : Z) : string := "/card/" +:+ pretty id.

(** [cmd_boards(args)] *)
Definition cmd_boards (include_archived include_columns : bool) : M unit :=
  let params := set_flag "includeArchived" include_archived [] in
  let params := set_flag "includeColumns" include_columns params in
  data <~ api_request "GET" "/boards" (Some params) None;;
  output data.

(** [cmd_board(args)] *)
Definition cmd_board (board : option string) (include_columns : bool) : M unit :=
  board <~ require_board board;;
  let params := set_flag "includeColumns" include_columns [] in
  data <~ api_request "GET" ("/board/" +:+ board) (Some params) None;;
  output data.

(** [cmd_card(args)]; [--number] is a string *)
Definition cmd_card (board : option string) (number : string) : M unit :=
  board <~ require_board board;;
  let params := [("board", JStr board); ("number", JStr number)] in
  data <~ api_request "GET" "/card" (Some params) None;;
  output data.

(** The namespace of the [cards] subcommand *)
Record cards_args : Type := {
  cards_board : option string;
  cards_page : Z;
  cards_count : Z;
  cards_days_since_update : option Z;
  cards_include_archived : bool;
  cards_label : option string;
  cards_owner : option string;
  cards_column : option string;
  cards_priority : option string;
  cards_blocked : bool;
  cards_query : option string;
}.

Definition has_filters (a : cards_args) : bool :=
  given (cards_label a) || given (cards_owner a) || given (cards_column a)
  || given (cards_priority a) || cards_blocked a || given (cards_query a).

(** [cmd_cards(args)] *)
Definition cmd_cards (a : cards_args) (fuel : nat) : M unit :=
  board <~ require_board (cards_board a);;
  if has_filters a then
    all_cards <~ fetch_all_cards (JStr board) (cards_include_archived a) fuel;;
    failed <~ liftM (is_error all_cards);;
    if failed then output all_cards
    else
      filtered <~ liftM (filter_cards all_cards (cards_label a) (cards_owner a)
                           (cards_column a) (cards_priority a) (cards_blocked a)
                           (cards_query a));;
      output (JObj [("count", JNum (Z.of_nat (length filtered)));
                    ("totalAvailable", JNum (Z.of_nat (length filtered)));
                    ("cards", JArr filtered);
                    ("hasMore", JBool false)])
  else
    let params := [("board", JStr board); ("page", JNum (cards_page a));
                   ("count", JNum (cards_count a))] in
    let params := match cards_days_since_update a with
                  | Some days => Py.set "daysSinceLastUpdate" (JNum days) params
                  | None => params
                  end in
    let params := set_flag "includeArchived" (cards_include_archived a) params in
    data <~ api_request "GET" "/cards" (Some params) None;;
    output data.

(** The namespace of the [create-card] subcommand *)
Record create_args : Type := {
  create_board : option string;
  create_title : string;
  create_column_id : option string;
  create_description : option string;
  create_owner : option string;
  create_priority : option string;
  create_label : option string;
  create_size : option string;
  create_due : option string;
  create_template_id : option string;
  create_add_to_top : bool;
  create_watcher : list string;
  create_custom_field : list string;
}.

(** [cmd_create_card(args)] *)
Definition cmd_create_card (a : create_args) : M unit :=
  board <~ require_board (create_board a);;
  let body := [("board", JStr board); ("title", JStr (create_title a))] in
  let body := set_given "columnId" (create_column_id a) body in
  let body := set_given "description" (create_description a) body in
  let body := set_given "owner" (create_owner a) body in
  let body := set_given "priority" (create_priority a) body in
  let body := set_given "label" (create_label a) body in
  let body := set_given "size" (create_size a) body in
  let body := set_given "dueAt" (create_due a) body in
  let body := set_given "templateId" (create_template_id a) body in
  let body := if create_add_to_top a then Py.set "addToTop" (JBool true) body
              else body in
  let body := set_watchers (create_watcher a) body in
  body <~ set_custom_fields (create_custom_field a) body;;
  data <~ api_request "POST" "/card" None (Some (JObj body));;
  output data.

(** [cmd_create_cards(args)] from the document [data] that [json.load] read
    from [args.file]; opening and decoding the file is not modelled. *)
Definition cmd_create_cards (data : json) (board : option string) : M unit :=
  present <~ liftM (Py.contains data "board");;
  data <~ (if present then retM data
           else
             board <~ require_board board;;
             match data with
             | JObj d => retM (JObj (Py.set "board" (JStr board) d))
             | _ => liftM (Raise TypeError)
             end);;
  answer <~ api_request "POST" "/cards" None (Some data);;
  output answer.

(** The namespace of the [update-card] subcommand *)
Record update_args : Type := {
  update_id : Z;
  update_title : option string;
  update_description : option string;
  update_column_id : option string;
  update_owner : option string;
  update_priority : option string;
  update_label : option string;
  update_size : option string;
  update_due : option string;
  update_blocked : option string;
  update_blocked_by : option string;
  update_blocked_reason : option string;
  update_mirror_board : option string;
  update_watcher : list string;
  update_custom_field : list string;
}.

(** [cmd_update_card(args)] *)
Definition cmd_update_card (a : update_args) : M unit :=
  let body := set_given "title" (update_title a) [] in
  let body := set_given "description" (update_description a) body in
  let body := set_given "columnId" (update_column_id a) body in
  let body := set_given "owner" (update_owner a) body in
  let body := set_given "priority" (update_priority a) body in
  let body := set_given "label" (update_label a) body in
  let body := set_given "size" (update_size a) body in
  let body := set_given "dueAt" (update_due a) body in
  let body := match update_blocked a with
              | Some b => Py.set "blocked"
                            (JBool (String.eqb (Py.lower b) "true")) body
              | None => body
              end in
  let body := set_given "blockedBy" (update_blocked_by a) body in
  let body := set_given "blockedReason" (update_blocked_reason a) body in
  let body := set_given "board" (update_mirror_board a) body in
  let body := set_watchers (update_watcher a) body in
  body <~ set_custom_fields (update_custom_field a) body;;
  match body with
  | [] => error_exit "No fields to update. Provide at least one field flag."
  | _ =>
      data <~ api_request "PUT" (card_path (update_id a)) None (Some (JObj body));;
      output data
  end.

(** [cmd_move_card(args)] *)
Definition cmd_move_card (id : Z) (column_id : string)
    (mirror_board : option string) : M unit :=
  let body := [("columnId", JStr column_id)] in
  let body := set_given "board" mirror_board body in
  data <~ api_request "POST" (card_path id +:+ "/move") None (Some (JObj body));;
  output data.

(** The namespace of the [link-card] and [unlink-card] subcommands
    ([unlink-card] has no [--type] and no [--title]) *)
Record link_args : Type := {
  link_id : Z;
  link_card : option Z;
  link_url : option string;
  link_type : option string;
  link_title : option string;
  link_mirror_board : option string;
}.

(** Truth value of an optional integer argument: [None] and [0] are false *)
Definition given_int (o : option Z) : bool :=
  match o with
  | Some n => negb (Z.eqb n 0)
  | None => false
  end.

(** [args.type or fallback] *)
Definition type_or (type : option string) (fallback : string) : json :=
  JStr (if given type then default "" type else fallback).

(** [cmd_link_card(args)] *)
Definition cmd_link_card (a : link_args) : M unit :=
  link <~ (if given_int (link_card a) then
             let link := Py.set "card" (JNum (default 0%Z (link_card a))) [] in
             retM (Py.set "type" (type_or (link_type a) "related") link)
           else if given (link_url a) then
             let link := set_given "url" (link_url a) [] in
             let link := Py.set "type" (type_or (link_type a) "external") link in
             retM (set_given "title" (link_title a) link)
           else error_exit "Provide either --card or --url to link.");;
  let body := [("links", JObj [("add", JArr [JObj link])])] in
  let body := set_given "board" (link_mirror_board a) body in
  data <~ api_request "PUT" (card_path (link_id a)) None (Some (JObj body));;
  output data.

(** [cmd_unlink_card(args)] *)
Definition cmd_unlink_card (a : link_args) : M unit :=
  link <~ (if given_int (link_card a) then
             retM (Py.set "card" (JNum (default 0%Z (link_card a))) [])
           else if given (link_url a) then
             retM (set_given "url" (link_url a) [])
           else error_exit "Provide either --card or --url to unlink.");;
  let body := [("links", JObj [("remove", JArr [JObj link])])] in
  let body := set_given "board" (link_mirror_board a) body in
  data <~ api_request "PUT" (card_path (link_id a)) None (Some (JObj body));;
  output data.

(** * Vocabulary of the properties *)

(** ** Filters *)

(** The text a string predicate compares: [(v or "")] when it is a string. *)
Definition text_of (v : json) : option string :=
  if Py.truthy v then match v with JStr t => Some t | _ => None end
  else Some "".

Definition field_text (card : json) (field : string) : string :=
  match get_card_field card field with
  | Ok v => default "" (text_of v)
  | _ => ""
  end.

(** The field resolves, to a string or to a false value such as [None]. *)
Definition has_text (card : json) (field : string) : Prop :=
  exists v t, get_card_field card field = Ok v /\ text_of v = Some t.

(** The three string-equality predicates, each applied alone. *)
Inductive str_pred : Type := ByLabel | ByOwner | ByColumn.

Definition pred_field (p : str_pred) : string :=
  match p with
  | ByLabel => "label"
  | ByOwner => "owner"
  | ByColumn => "columnTitle"
  end.

Definition filter_by (p : str_pred) (s : string) (cards : json)
  : outcome (list json) :=
  match p with
  | ByLabel => filter_cards cards (Some s) None None None false None
  | ByOwner => filter_cards cards None (Some s) None None false None
  | ByColumn => filter_cards cards None None (Some s) None false None
  end.

(** ** WIP report *)

(** The column a wrapper stands for is CARD-typed. *)
Definition card_typed (col_wrapper : json) : bool :=
  match (col <- Py.get col_wrapper "ColumnItem" col_wrapper;;
         Py.get col "type" JNull) with
  | Ok type => Py.is_str "CARD" type
  | _ => false
  end.

Definition col_field (col : dict) (name : string) : json :=
  default JNull (Py.lookup name col).

(** [col.get("columnId", col.get("boardTitle"))] *)
Definition column_id (col : dict) : json :=
  default (col_field col "boardTitle") (Py.lookup "columnId" col).

Definition report_entry (col : dict) (current : nat) (violations : list json)
  : json :=
  JObj [("columnId", column_id col);
        ("columnTitle", col_field col "title");
        ("columnState", col_field col "columnState");
        ("currentCards", JNum (Z.of_nat current));
        ("minWIP", col_field col "minWIP");
        ("maxWIP", col_field col "maxWIP");
        ("violations", JArr violations)].

(** A WIP limit as the API gives it: absent (or [null]), or an integer. *)
Definition threshold (v : json) : option (option Z) :=
  match v with
  | JNull => Some None
  | JNum z => Some (Some z)
  | _ => None
  end.

Definition over_max (current : nat) (m : Z) : json :=
  JStr ("over max (" +:+ pretty current +:+ "/" +:+ pretty m +:+ ")").

Definition under_min (current : nat) (m : Z) : json :=
  JStr ("under min (" +:+ pretty current +:+ "/" +:+ pretty m +:+ ")").

(** The violations when every limit that is present counts as set. *)
Definition violations_if_set (current : nat) (min_wip max_wip : option Z)
  : list json :=
  match max_wip with
  | Some m => if Z.ltb m (Z.of_nat current) then [over_max current m] else []
  | None => []
  end ++
  match min_wip with
  | Some m => if Z.ltb (Z.of_nat current) m then [under_min current m] else []
  | None => []
  end.

(** The violations when a maximum of zero counts as no limit. *)
Definition violations_if_nonzero (current : nat) (min_wip max_wip : option Z)
  : list json :=
  match max_wip with
  | Some m => if negb (Z.eqb m 0) && Z.ltb m (Z.of_nat current)
              then [over_max current m] else []
  | None => []
  end ++
  match min_wip with
  | Some m => if Z.ltb (Z.of_nat current) m then [under_min current m] else []
  | None => []
  end.

(** The card counts for the key [k]: its column identifier is a true value
    (not [None], not empty, not zero) that equals [k]. *)
Definition assigned_to (k : Py.key) (card : json) : bool :=
  match get_card_field card "columnId" with
  | Ok cid =>
      Py.truthy cid
      && match Py.hash cid with Ok k' => bool_decide (k' = k) | _ => false end
  | _ => false
  end.

(** The card has a column identifier that is present ([None] is the absent
    marker) and equals [k]. *)
Definition resolves_to (k : Py.key) (card : json) : bool :=
  match get_card_field card "columnId" with
  | Ok JNull => false
  | Ok cid => match Py.hash cid with Ok k' => bool_decide (k' = k) | _ => false end
  | _ => false
  end.

(** The counting loop goes through on the card: its column identifier
    resolves, to a false value or to a hashable one. *)
Definition countable_card (card : json) : Prop :=
  exists cid, get_card_field card "columnId" = Ok cid
              /\ (Py.truthy cid = true -> exists k, Py.hash cid = Ok k).

Definition unassigned (card : json) : Prop :=
  exists cid, get_card_field card "columnId" = Ok cid /\ Py.truthy cid = false.

(** ** Pagination *)

(** The parameters of the request for page [p]: the first request names no
    page. *)
Definition params_at (board : json) (include_archived : bool) (p : nat) : dict :=
  if Nat.eqb p 1 then base_params board include_archived
  else Py.set "page" (JNum (Z.of_nat p)) (base_params board include_archived).

Definition cards_request (board : json) (include_archived : bool) (p : nat)
  : request :=
  {| method := "GET"; path := "/cards";
     params := List.filter not_none (params_at board include_archived p);
     body := None |}.

Definition with_sent (w : world) (reqs : list request) : world :=
  {| api_key := api_key w; default_board := default_board w;
     server := server w; sent := sent w ++ reqs; stdout := stdout w |}.

(** The world once pages [1..n] have been requested *)
Definition after_pages (w : world) (board : json) (include_archived : bool)
    (n : nat) : world :=
  with_sent w (cards_request board include_archived <$> seq 1 n).

(** The answer to the request for page [p], pages [1..p-1] having been
    requested before *)
Definition response_at (w : world) (board : json) (include_archived : bool)
    (p : nat) : json :=
  server w (sent (after_pages w board include_archived (p - 1)))
    (cards_request board include_archived p).

(** A page without error, with its records and its [hasMore] *)
Definition good_page (doc : json) (records : list json) (more : bool) : Prop :=
  exists d, doc = JObj d
            /\ Py.truthy (default JNull (Py.lookup "error" d)) = false
            /\ default (JArr []) (Py.lookup "cards" d) = JArr records
            /\ Py.truthy (default JNull (Py.lookup "hasMore" d)) = more.

(** An error document, as [api_request] returns on failure *)
Definition error_page (doc : json) : Prop :=
  exists d, doc = JObj d
            /\ Py.truthy (default JNull (Py.lookup "error" d)) = true.

Record page : Type := { records : list json; hasMore : bool }.

Definition page_doc (pg : page) : json :=
  JObj [("cards", JArr (records pg)); ("hasMore", JBool (hasMore pg))].

(** The page a request asks for: page 1 when it names none *)
Definition page_number (req : request) : nat :=
  match Py.lookup "page" (params req) with
  | Some (JNum z) => Z.to_nat z
  | _ => 1
  end.

Definition paged (pages : nat -> page) : list request -> request -> json :=
  fun _ req => page_doc (pages (page_number req)).

(** The spec's mock transport: pages of 100, 100 and 37 records. *)
Definition mock_pages (p : nat) : page :=
  match p with
  | 1 => {| records := repeat (JObj [("title", JStr "first")]) 100; hasMore := true |}
  | 2 => {| records := repeat (JObj [("title", JStr "second")]) 100; hasMore := true |}
  | _ => {| records := repeat (JObj [("title", JStr "third")]) 37; hasMore := false |}
  end.

Definition mock_world (answers : list request -> request -> json) : world :=
  {| api_key := Some "secret"; default_board := None;
     server := answers; sent := []; stdout := [] |}.

Definition http_500 : json :=
  JObj [("error", JBool true); ("status", JNum 500);
        ("message", JStr "Internal Server Error"); ("body", JStr "")].

(** Page 1 good with [hasMore], every later request fails *)
Definition fails_after_first (hist : list request) (req : request) : json :=
  if Nat.eqb (page_number req) 1
  then page_doc {| records := repeat (JObj [("title", JStr "first")]) 100;
                   hasMore := true |}
  else http_500.

(** ** Cross-board search *)

(** Requests are only ever added to the log. *)
Definition monotone {A} (m : M A) : Prop :=
  forall w, exists reqs, sent (m w).2 = sent w ++ reqs.

Definition boards_request : request :=
  {| method := "GET"; path := "/boards"; params := []; body := None |}.

Definition usage_exit (w : world) : outcome unit * world :=
  (Raise (SystemExit 1), print (error_doc search_usage) w).

(** A query or a filter flag is on the command line. *)
Definition supplied (a : args) : Prop :=
  arg_query a <> None \/ arg_label a <> None \/ arg_owner a <> None
  \/ arg_priority a <> None \/ arg_blocked a = true.

(** A non-empty query or filter value, or [--blocked], is on the command
    line. *)
Definition narrowing (a : args) : bool :=
  given (arg_query a) || given (arg_label a) || given (arg_owner a)
  || given (arg_priority a) || arg_blocked a.

Definition no_args : args :=
  {| arg_board := None; arg_query := None; arg_label := None;
     arg_owner := None; arg_priority := None; arg_blocked := false;
     arg_include_archived := false |}.

Definition label_args (label : string) : args :=
  {| arg_board := None; arg_query := None; arg_label := Some label;
     arg_owner := None; arg_priority := None; arg_blocked := false;
     arg_include_archived := false |}.

Definition no_boards (hist : list request) (req : request) : json :=
  JObj [("boards", JArr [])].

(** ** A board for [cmd_wip_check] *)

(** A board with an ARCHIVE column, the spec's column ["c1"] (limits 2 and
    5) and a column ["c2"] with a minimum of 1; seven cards in ["c1"], one
    of them in the wrapper shape, and one card without column. *)
Definition wip_board (hist : list request) (req : request) : json :=
  if String.eqb (path req) "/cards" then
    JObj [("cards",
           JArr (repeat (JObj [("columnId", JStr "c1")]) 6
                 ++ [JObj [("CardItem", JObj [("columnId", JStr "c1")])];
                     JObj [("title", JStr "loose")]]));
          ("hasMore", JBool false)]
  else
    JObj [("boards",
           JArr [JObj [("BoardItem",
                        JObj [("columns",
                               JArr [JObj [("columnId", JStr "old");
                                           ("type", JStr "ARCHIVE");
                                           ("minWIP", JNum 3)];
                                     JObj [("ColumnItem",
                                            JObj [("columnId", JStr "c1");
                                                  ("title", JStr "Doing");
                                                  ("type", JStr "CARD");
                                                  ("minWIP", JNum 2);
                                                  ("maxWIP", JNum 5)])];
                                     JObj [("columnId", JStr "c2");
                                           ("type", JStr "CARD");
                                           ("minWIP", JNum 1)]])])]])].

Definition wip_args : args :=
  {| arg_board := Some "b1"; arg_query := None; arg_label := None;
     arg_owner := None; arg_priority := None; arg_blocked := false;
     arg_include_archived := false |}.

(** ** Effects of a run *)

(** Every world a computation ends in is related to the one it started in. *)
Definition respects (R : world -> world -> Prop) {A} (m : M A) : Prop :=
  forall w, R w (m w).2.

(** The environment and the server stay as they are; requests and printed
    documents are only added. *)
Definition frame (w w' : world) : Prop :=
  api_key w' = api_key w
  /\ default_board w' = default_board w
  /\ server w' = server w
  /\ (exists reqs, sent w' = sent w ++ reqs)
  /\ (exists docs, stdout w' = stdout w ++ docs).

(** Without an API key nothing is sent. *)
Definition offline (w w' : world) : Prop :=
  api_key w' = api_key w
  /\ (given (api_key w) = false -> sent w' = sent w).

(** Nothing is printed, except the one document of an exit, with code 1. *)
Definition quiet {A} (m : M A) : Prop :=
  forall w,
    match m w with
    | (Raise (SystemExit code), w') =>
        code = 1%Z /\ exists doc, stdout w' = stdout w ++ [doc]
    | (_, w') => stdout w' = stdout w
    end.

(** A run that returns or exits has printed exactly one document, an exit
    has code 1, and a run that ends otherwise has printed nothing. *)
Definition one_document {A} (m : M A) : Prop :=
  forall w,
    match m w with
    | (Ok _, w') => exists doc, stdout w' = stdout w ++ [doc]
    | (Raise (SystemExit code), w') =>
        code = 1%Z /\ exists doc, stdout w' = stdout w ++ [doc]
    | (_, w') => stdout w' = stdout w
    end.

(** The handlers, each as a function of the world alone *)
Inductive command : Type :=
| Boards (include_archived include_columns : bool)
| Board (board : option string) (include_columns : bool)
| Cards (a : cards_args) (fuel : nat)
| Card (board : option string) (number : string)
| CreateCard (a : create_args)
| CreateCards (data : json) (board : option string)
| UpdateCard (a : update_args)
| MoveCard (id : Z) (column_id : string) (mirror_board : option string)
| LinkCard (a : link_args)
| UnlinkCard (a : link_args)
| SearchCards (a : args) (fuel : nat)
| WipCheck (a : args) (fuel : nat).

Definition run (c : command) : M unit :=
  match c with
  | Boards include_archived include_columns =>
      cmd_boards include_archived include_columns
  | Board board include_columns => cmd_board board include_columns
  | Cards a fuel => cmd_cards a fuel
  | Card board number => cmd_card board number
  | CreateCard a => cmd_create_card a
  | CreateCards data board => cmd_create_cards data board
  | UpdateCard a => cmd_update_card a
  | MoveCard id column_id mirror_board => cmd_move_card id column_id mirror_board
  | LinkCard a => cmd_link_card a
  | UnlinkCard a => cmd_unlink_card a
  | SearchCards a fuel => cmd_search_cards a fuel
  | WipCheck a fuel => cmd_wip_check a fuel
  end.

(** A world without API key *)
Definition keyless_world (answers : list request -> request -> json) : world :=
  {| api_key := None; default_board := Some "b1";
     server := answers; sent := []; stdout := [] |}.

(** The outcome is no exit: pure code never calls [sys.exit]. *)
Definition no_exit {A} (o : outcome A) : Prop :=
  match o with
  | Raise (SystemExit _) => False
  | _ => True
  end.

(** Every page has a full page of one card and says there is more. *)
Definition endless (hist : list request) (req : request) : json :=
  page_doc {| records := [JObj [("title", JStr "again")]]; hasMore := true |}.

(** Page 1 is good and says there is more; the answer for page 2 is a JSON
    array, no mapping. *)
Definition array_after_first (hist : list request) (req : request) : json :=
  if Nat.eqb (page_number req) 1
  then page_doc {| records := [JObj [("title", JStr "first")]]; hasMore := true |}
  else JArr [].

(** ** Custom fields *)

(** ["Label=Value"] *)
Definition field_text_of (lv : string * string) : string :=
  lv.1 +:+ "=" +:+ lv.2.

(** [{"label": ..., "value": ...}] *)
Definition field_doc (label value : string) : json :=
  JObj [("label", JStr label); ("value", JStr value)].

(** No white space at either end *)
Definition trimmed (s : string) : Prop :=
  Text.lstrip s = s /\ Text.lstrip (String.rev s) = String.rev s.

(** ** More on filters *)

(** The field resolves, whatever its value. *)
Definition resolves (card : json) (field : string) : Prop :=
  exists v, get_card_field card field = Ok v.

(** [str(get_card_field(card, "priority") or "")] *)
Definition priority_str (card : json) : string :=
  match get_card_field card "priority" with
  | Ok v => Py.str (Py.or_else v (JStr ""))
  | _ => ""
  end.

(** [bool(get_card_field(card, "blocked"))] *)
Definition is_blocked (card : json) : bool :=
  match get_card_field card "blocked" with
  | Ok v => Py.truthy v
  | _ => false
  end.

(** The query is found in the title or in the description, case apart. *)
Definition query_hits (query : string) (card : json) : bool :=
  Py.substring_of (Py.lower query) (Py.lower (field_text card "title"))
  || Py.substring_of (Py.lower query) (Py.lower (field_text card "description")).

(** The predicate [o] is absent, or it is the predicate [o']. *)
Definition weaker (o o' : option string) : Prop :=
  given o = false \/ o = o'.

(** ** Boards of the subcommands *)

Definition board_usage : string :=
  "Board ID required. Use --board or set KANBANZONE_BOARD_ID".

(** The [--board] argument of the subcommands that start with
    [require_board] *)
Definition board_argument (c : command) : option (option string) :=
  match c with
  | Board board _ => Some board
  | Cards a _ => Some (cards_board a)
  | Card board _ => Some board
  | CreateCard a => Some (create_board a)
  | WipCheck a _ => Some (arg_board a)
  | _ => None
  end.

(** The world with another value of [KANBANZONE_BOARD_ID] *)
Definition with_default_board (w : world) (board : option string) : world :=
  {| api_key := api_key w; default_board := board;
     server := server w; sent := sent w; stdout := stdout w |}.

(** Two worlds that differ at most in [KANBANZONE_BOARD_ID] *)
Definition same_but_board (w w' : world) : Prop :=
  api_key w' = api_key w /\ server w' = server w
  /\ sent w' = sent w /\ stdout w' = stdout w.

(** The computation does not read [KANBANZONE_BOARD_ID]. *)
Definition board_blind {A} (m : M A) : Prop :=
  forall w w', same_but_board w w' ->
               (m w').1 = (m w).1 /\ same_but_board (m w).2 (m w').2.

(** ** Subcommands that relay one request *)

(** The computation sends nothing, and changes nothing when it returns. *)
Definition silent {A} (m : M A) : Prop :=
  forall w,
    match m w with
    | (Ok _, w') => w' = w
    | (_, w') => sent w' = sent w
    end.

(** With an API key: a run that returns has sent one request and printed
    the answer to it; a run that ends otherwise has sent nothing. *)
Definition relay (m : M unit) : Prop :=
  forall w,
    given (api_key w) = true ->
    match m w with
    | (Ok _, w') =>
        exists req, sent w' = sent w ++ [req]
                    /\ stdout w' = stdout w ++ [server w (sent w) req]
    | (_, w') => sent w' = sent w
    end.


(** ** Requests of the write subcommands *)

(** One request sent, its answer printed, and a normal return *)
Definition sent_and_printed (w : world) (req : request) : outcome unit * world :=
  (Ok (), print (server w (sent w) req) (with_sent w [req])).

Definition put_card (id : Z) (body : json) : request :=
  {| method := "PUT"; path := card_path id; params := []; body := Some body |}.

Definition post (path : string) (body : json) : request :=
  {| method := "POST"; path := path; params := []; body := Some body |}.

(** [{"links": {verb: [link]}}], with the mirror board when it is given *)
Definition link_body (verb : string) (link : dict) (mirror_board : option string)
  : json :=
  JObj (set_given "board" mirror_board
          [("links", JObj [(verb, JArr [JObj link])])]).

(** The value sent for an optional string argument, if any *)
Definition optional (o : option string) : option json :=
  if given o then Some (JStr (default "" o)) else None.

(** The [cards] arguments with other values of [--page], [--count] and
    [--days-since-update] *)
Definition with_paging (a : cards_args) (page count : Z) (days : option Z)
  : cards_args :=
  {| cards_board := cards_board a; cards_page := page; cards_count := count;
     cards_days_since_update := days;
     cards_include_archived := cards_include_archived a;
     cards_label := cards_label a; cards_owner := cards_owner a;
     cards_column := cards_column a; cards_priority := cards_priority a;
     cards_blocked := cards_blocked a; cards_query := cards_query a |}.

(** The document [cmd_cards] prints for a filtered listing *)
Definition cards_summary (filtered : list json) : json :=
  JObj [("count", JNum (Z.of_nat (length filtered)));
        ("totalAvailable", JNum (Z.of_nat (length filtered)));
        ("cards", JArr filtered);
        ("hasMore", JBool false)].

(** No field flag of [update-card] has a value that counts: the string
    flags are absent or empty, [--blocked] is absent, and there is no
    watcher and no custom field. *)
Definition no_update_fields (a : update_args) : bool :=
  negb (given (update_title a)) && negb (given (update_description a))
  && negb (given (update_column_id a)) && negb (given (update_owner a))
  && negb (given (update_priority a)) && negb (given (update_label a))
  && negb (given (update_size a)) && negb (given (update_due a))
  && negb (given (update_blocked_by a)) && negb (given (update_blocked_reason a))
  && negb (given (update_mirror_board a))
  && bool_decide (update_blocked a = None)
  && bool_decide (update_watcher a = [])
  && bool_decide (update_custom_field a = []).

(** [update-card --id ID --blocked VALUE] *)
Definition blocked_only (id : Z) (value : string) : update_args :=
  {| update_id := id; update_title := None; update_description := None;
     update_column_id := None; update_owner := None; update_priority := None;
     update_label := None; update_size := None; update_due := None;
     update_blocked := Some value; update_blocked_by := None;
     update_blocked_reason := None; update_mirror_board := None;
     update_watcher := []; update_custom_field := [] |}.

Definition no_fields_usage : string :=
  "No fields to update. Provide at least one field flag.".

(** A minimal [create-card] with an owner given as the empty string *)
Definition create_plain : create_args :=
  {| create_board := Some "b1"; create_title := "New card";
     create_column_id := Some "c1"; create_description := None;
     create_owner := Some ""; create_priority := None; create_label := None;
     create_size := None; create_due := None; create_template_id := None;
     create_add_to_top := false; create_watcher := [];
     create_custom_field := ["Team = Core"] |}.

(** ** Boards of the search and of the WIP check *)

(** The board is flagged archived. *)
Definition archived_board (board_item : json) : Prop :=
  exists bi, Py.get board_item "BoardItem" board_item = Ok (JObj bi)
             /\ Py.truthy (default JNull (Py.lookup "isArchived" bi)) = true.


Definition no_results : json :=
  JObj [("count", JNum 0); ("cards", JArr [])].

(** Two boards, both archived, one of them in the wrapper shape *)
Definition archived_only (hist : list request) (req : request) : json :=
  JObj [("boards",
         JArr [JObj [("publicId", JStr "b1"); ("isArchived", JBool true)];
               JObj [("BoardItem",
                      JObj [("publicId", JStr "b2");
                            ("isArchived", JBool true)])]])].


(** A filtered listing of board ["b1"]: the cards labelled ["urgent"]. *)
Definition urgent_cards (page : Z) : cards_args :=
  {| cards_board := Some "b1"; cards_page := page; cards_count := 100;
     cards_days_since_update := None; cards_include_archived := false;
     cards_label := Some "urgent"; cards_owner := None; cards_column := None;
     cards_priority := None; cards_blocked := false; cards_query := None |}.

(** Card 7 linked to another card, with a title and no link type. *)
Definition link_to_card (card : Z) : link_args :=
  {| link_id := 7; link_card := Some card; link_url := None; link_type := None;
     link_title := Some "ignored"; link_mirror_board := None |}.

(** * Properties *)

Example repr_sample :
  Py.str (JArr [JNum 1; JStr "a"; JStr "it's"; JNull; JBool true;
                JObj [("k", JArr [JNum (-3)])]])
  = "[1, 'a', " +:+ String Py.dquote "it's" +:+ String Py.dquote ", None, True, {'k': [-3]}]".
Proof. vm_compute. reflexivity. Qed.

(** ** Dictionaries *)

Lemma lookup_set (k k' : string) (v : json) (d : dict) :
  Py.lookup k' (Py.set k v d) = if String.eqb k k' then Some v else Py.lookup k' d.
Proof.
  induction d as [|[k0 v0] d IH]; simpl.
  - reflexivity.
  - destruct (String.eqb k0 k) eqn:E0; simpl.
    + apply String.eqb_eq in E0. subst k0.
      destruct (String.eqb k k'); reflexivity.
    + destruct (String.eqb k0 k') eqn:E1; [|exact IH].
      apply String.eqb_eq in E1. subst k0.
      rewrite String.eqb_sym, E0. reflexivity.
Qed.

Lemma lookup_set_ne (k k' : string) (v : json) (d : dict) :
  k <> k' -> Py.lookup k' (Py.set k v d) = Py.lookup k' d.
Proof.
  intros Hne. rewrite lookup_set.
  destruct (String.eqb k k') eqn:E; [|reflexivity].
  apply String.eqb_eq in E. contradiction.
Qed.

Lemma contains_dict (d : dict) (k : string) :
  Py.contains (JObj d) k = Ok (bool_decide (is_Some (Py.lookup k d))).
Proof. reflexivity. Qed.

(** ** Field lookup *)

Lemma get_card_field_present (card : dict) (f : string) (v : json) :
  Py.lookup f card = Some v -> get_card_field (JObj card) f = Ok v.
Proof.
  intros H. unfold get_card_field. simpl. rewrite H.
  rewrite bool_decide_true by eauto. reflexivity.
Qed.

Lemma get_card_field_absent (card : dict) (f : string) :
  Py.lookup f card = None ->
  get_card_field (JObj card) f
  = Py.get (from_option id (JObj []) (Py.lookup "CardItem" card)) f JNull.
Proof.
  intros H. unfold get_card_field. simpl. rewrite H.
  rewrite bool_decide_false by (intros [? ?]; discriminate).
  reflexivity.
Qed.

(** C4.  Field lookup does not depend on the shape of the record: a field
    [f] with value [v] at top level (flat record) and a field [f] with value
    [v] found only under the ["CardItem"] wrapper (nested record) both
    resolve to [v]; when [f] is neither at top level nor inside the wrapper,
    the lookup returns [None] ([JNull]) and raises nothing. *)
Theorem get_card_field_shape_agnostic (f : string) (v : json) :
  (forall flat : dict,
      Py.lookup f flat = Some v -> get_card_field (JObj flat) f = Ok v)
  /\ (forall nested inner : dict,
         Py.lookup f nested = None ->
         Py.lookup "CardItem" nested = Some (JObj inner) ->
         Py.lookup f inner = Some v ->
         get_card_field (JObj nested) f = Ok v)
  /\ (forall card : dict,
         Py.lookup f card = None ->
         (Py.lookup "CardItem" card = None
          \/ exists inner, Py.lookup "CardItem" card = Some (JObj inner)
                           /\ Py.lookup f inner = None) ->
         get_card_field (JObj card) f = Ok JNull).
Proof.
  split; [|split].
  - intros flat H. exact (get_card_field_present _ _ _ H).
  - intros nested inner Htop Hwrap Hin.
    rewrite get_card_field_absent by exact Htop.
    rewrite Hwrap. simpl. rewrite Hin. reflexivity.
  - intros card Htop [Hno | (inner & Hwrap & Hin)];
      rewrite get_card_field_absent by exact Htop.
    + rewrite Hno. reflexivity.
    + rewrite Hwrap. simpl. rewrite Hin. reflexivity.
Qed.

(** The spec's instance: [{title: "A"}] and [{CardItem: {title: "A"}}]. *)
Lemma get_card_field_shape_agnostic_witness :
  get_card_field (JObj [("title", JStr "A")]) "title" = Ok (JStr "A")
  /\ get_card_field (JObj [("CardItem", JObj [("title", JStr "A")])]) "title"
     = Ok (JStr "A")
  /\ get_card_field (JObj [("number", JNum 7)]) "title" = Ok JNull.
Proof.
  destruct (get_card_field_shape_agnostic "title" (JStr "A")) as (Hflat & Hnested & Habsent).
  split; [|split].
  - apply Hflat. reflexivity.
  - apply (Hnested _ [("title", JStr "A")]); reflexivity.
  - apply Habsent; [reflexivity | left; reflexivity].
Defined.

(** C10.  A key present at top level shadows the wrapper: the lookup returns
    the top-level value, [None] included, whatever the record holds under
    ["CardItem"] (even a value that is no mapping); the wrapper is read only
    when the key is absent at top level. *)
Theorem top_level_shadows_wrapper (card : dict) (f : string) :
  (forall v, Py.lookup f card = Some v ->
             get_card_field (JObj card) f = Ok v
             /\ forall wrapper, f <> "CardItem" ->
                  get_card_field (JObj (Py.set "CardItem" wrapper card)) f = Ok v)
  /\ (Py.lookup f card = None ->
      get_card_field (JObj card) f
      = Py.get (from_option id (JObj []) (Py.lookup "CardItem" card)) f JNull).
Proof.
  split.
  - intros v H. split.
    + exact (get_card_field_present _ _ _ H).
    + intros wrapper Hne. apply get_card_field_present.
      rewrite lookup_set_ne by congruence. exact H.
  - apply get_card_field_absent.
Qed.

(** A top-level [null] wins over a value in the wrapper, and over a wrapper
    that is not a mapping. *)
Lemma top_level_shadows_wrapper_witness :
  get_card_field
    (JObj [("owner", JNull); ("CardItem", JObj [("owner", JStr "ann")])]) "owner"
  = Ok JNull
  /\ get_card_field (JObj [("owner", JNull); ("CardItem", JNum 3)]) "owner"
     = Ok JNull.
Proof.
  split.
  - apply (proj1 (proj1 (top_level_shadows_wrapper
                           [("owner", JNull);
                            ("CardItem", JObj [("owner", JStr "ann")])] "owner")
                    JNull eq_refl)).
  - apply (proj2 (proj1 (top_level_shadows_wrapper [("owner", JNull)] "owner")
                    JNull eq_refl) (JNum 3)).
    discriminate.
Defined.

(** ** Filters *)

Section Filter.

Variables (label owner column priority : option string).
Variable blocked : bool.
Variable query : option string.

Local Abbreviation skip card :=
  (skipped card label owner column priority blocked query).
Local Abbreviation loop cards result :=
  (filter_loop cards label owner column priority blocked query result).

(** When the verdict on every card is known, the loop is [List.filter]. *)
Lemma filter_loop_keeps (keep : json -> bool) (cards result : list json) :
  Forall (fun card => skip card = Ok (negb (keep card))) cards ->
  loop cards result = Ok (result ++ List.filter keep cards).
Proof.
  revert result. induction cards as [|card cards IH]; intros result H; simpl.
  - rewrite app_nil_r. reflexivity.
  - inversion H as [|? ? Hcard Hrest]; subst.
    rewrite Hcard. simpl.
    destruct (keep card); simpl; rewrite IH by assumption.
    + rewrite <- app_assoc. reflexivity.
    + reflexivity.
Qed.

(** What a returned result is made of. *)
Lemma filter_loop_result (cards result res : list json) :
  loop cards result = Ok res ->
  exists kept, res = result ++ kept
               /\ sublist kept cards
               /\ Forall (fun card => skip card = Ok false) kept.
Proof.
  revert result. induction cards as [|card cards IH]; intros result H; simpl in H.
  - exists []. inversion H. rewrite app_nil_r.
    split; [reflexivity | split; constructor].
  - destruct (skip card) as [b| |] eqn:E; simpl in H; try discriminate.
    destruct (IH _ H) as (kept & -> & Hsub & Hall). destruct b.
    + exists kept. split; [reflexivity|]. split; [|assumption].
      apply sublist_cons. assumption.
    + exists (card :: kept). rewrite <- app_assoc.
      split; [reflexivity|]. split.
      * apply sublist_skip. assumption.
      * constructor; assumption.
Qed.

End Filter.

Lemma filter_true {A} (l : list A) : List.filter (fun _ => true) l = l.
Proof. induction l; simpl; congruence. Qed.

(** C8.  Filtering is idempotent and returns an order-preserving
    subsequence: for every record list [R] and every combination of the
    label, owner, column, priority, blocked and query predicates, filtering
    the result of [filter_cards] again with the same predicates gives that
    result again (an exception of the first pass is the outcome of both
    sides), and a returned result is a sublist of [R]. *)
Theorem filter_cards_idempotent (R : list json)
    (label owner column priority : option string) (blocked : bool)
    (query : option string) :
  (R' <- filter_cards (JArr R) label owner column priority blocked query;;
   filter_cards (JArr R') label owner column priority blocked query)
  = filter_cards (JArr R) label owner column priority blocked query
  /\ forall R', filter_cards (JArr R) label owner column priority blocked query
                = Ok R' -> sublist R' R.
Proof.
  unfold filter_cards. simpl.
  destruct (filter_loop R label owner column priority blocked query [])
    as [res| |] eqn:E; simpl.
  - destruct (filter_loop_result _ _ _ _ _ _ _ _ _ E) as (kept & -> & Hsub & Hall).
    simpl. split.
    + rewrite (filter_loop_keeps _ _ _ _ _ _ (fun _ => true)) by exact Hall.
      rewrite filter_true. reflexivity.
    + intros R' [= <-]. exact Hsub.
  - split; [reflexivity | discriminate].
  - split; [reflexivity | discriminate].
Qed.

Example filter_cards_sample :
  filter_cards
    (JArr [JObj [("title", JStr "Fix Login"); ("label", JStr "BUG")];
           JObj [("title", JStr "Write docs")];
           JObj [("CardItem", JObj [("title", JStr "login page");
                                    ("label", JStr "bug")])]])
    (Some "Bug") None None None false (Some "LOGIN")
  = Ok [JObj [("title", JStr "Fix Login"); ("label", JStr "BUG")];
        JObj [("CardItem", JObj [("title", JStr "login page");
                                 ("label", JStr "bug")])]].
Proof. vm_compute. reflexivity. Qed.

(** *** String-equality predicates *)

Lemma lower_of_text (v : json) (t : string) :
  text_of v = Some t -> Py.lower_of (Py.or_else v (JStr "")) = Ok (Py.lower t).
Proof.
  unfold text_of, Py.or_else. destruct (Py.truthy v) eqn:E.
  - destruct v; try discriminate. intros [= ->]. reflexivity.
  - intros [= <-]. reflexivity.
Qed.

Lemma differs_lower_text (card : json) (field s : string) :
  has_text card field ->
  differs_lower card field s
  = Ok (negb (String.eqb (Py.lower (field_text card field)) (Py.lower s))).
Proof.
  intros (v & t & Hv & Ht). unfold differs_lower, field_text.
  rewrite Hv. simpl. rewrite (lower_of_text _ _ Ht), Ht. reflexivity.
Qed.

Lemma skipped_by (p : str_pred) (s : string) (card : json) :
  s <> "" -> has_text card (pred_field p) ->
  match p with
  | ByLabel => skipped card (Some s) None None None false None
  | ByOwner => skipped card None (Some s) None None false None
  | ByColumn => skipped card None None (Some s) None false None
  end
  = Ok (negb (String.eqb (Py.lower (field_text card (pred_field p))) (Py.lower s))).
Proof.
  intros Hs Ht. apply String.eqb_neq in Hs.
  destruct p; unfold skipped; simpl; rewrite Hs;
    rewrite (differs_lower_text _ _ _ Ht); simpl;
    destruct (String.eqb (Py.lower _) _); reflexivity.
Qed.

Lemma lower_empty (s : string) : Py.lower s = "" -> s = "".
Proof. destruct s; [reflexivity | discriminate]. Qed.

Lemma filter_by_empty (p : str_pred) (R : list json) :
  filter_by p "" (JArr R) = Ok R.
Proof.
  destruct p; unfold filter_by, filter_cards; simpl;
    rewrite (filter_loop_keeps _ _ _ _ _ _ (fun _ => true));
    try (rewrite filter_true; reflexivity);
    apply Forall_forall; intros; reflexivity.
Qed.

(** C6.  The label, owner and column predicates compare lower-cased text,
    an absent field counting as the empty string: for a non-empty filter
    value [s] and records whose field resolves to text (or to nothing), the
    predicate keeps exactly the records [r] with
    [lower (field of r) = lower s], in their order; so a record whose field
    is absent is never kept by a non-empty [s], and a filter for the empty
    string keeps every record, one with an absent field included. *)
Theorem string_predicates_case_insensitive (p : str_pred) (R : list json) :
  Forall (fun r => has_text r (pred_field p)) R ->
  (forall s, s <> "" ->
     filter_by p s (JArr R)
     = Ok (List.filter
             (fun r => String.eqb (Py.lower (field_text r (pred_field p)))
                                  (Py.lower s)) R))
  /\ (forall s r, s <> "" -> In r R ->
        get_card_field r (pred_field p) = Ok JNull ->
        forall kept, filter_by p s (JArr R) = Ok kept -> ~ In r kept)
  /\ filter_by p "" (JArr R) = Ok R.
Proof.
  intros Htext.
  assert (Hmain : forall s, s <> "" ->
     filter_by p s (JArr R)
     = Ok (List.filter
             (fun r => String.eqb (Py.lower (field_text r (pred_field p)))
                                  (Py.lower s)) R)).
  { intros s Hs.
    assert (H := fun label owner column =>
                   filter_loop_keeps label owner column None false None
                     (fun r => String.eqb (Py.lower (field_text r (pred_field p)))
                                          (Py.lower s)) R []).
    pose proof (fun r => skipped_by p s r Hs) as Hskip.
    destruct p; unfold filter_by, filter_cards; simpl; rewrite H;
      try reflexivity;
      (eapply Forall_impl; [exact Htext|]); intros r Hr; exact (Hskip r Hr). }
  split; [exact Hmain|]. split; [|apply filter_by_empty].
  intros s r Hs Hin Habsent kept Hkept.
  rewrite (Hmain s Hs) in Hkept. injection Hkept as <-.
  rewrite filter_In. intros [_ Heq].
  unfold field_text in Heq. rewrite Habsent in Heq.
  apply String.eqb_eq in Heq. simpl in Heq. symmetry in Heq.
  apply lower_empty in Heq. contradiction.
Qed.

(** The spec's instance: ["Urgent"] keeps ["URGENT"] and ["urgent"], not a
    record without label nor one labelled otherwise. *)
Lemma string_predicates_case_insensitive_witness :
  filter_by ByLabel "Urgent"
    (JArr [JObj [("label", JStr "URGENT")];
           JObj [("title", JStr "no label")];
           JObj [("CardItem", JObj [("label", JStr "urgent")])];
           JObj [("label", JStr "later")]])
  = Ok [JObj [("label", JStr "URGENT")];
        JObj [("CardItem", JObj [("label", JStr "urgent")])]].
Proof.
  refine (eq_trans
            (proj1 (string_predicates_case_insensitive ByLabel _ _) "Urgent" _) _).
  - repeat constructor; eexists _, _; (split; [vm_compute; reflexivity | reflexivity]).
  - discriminate.
  - vm_compute. reflexivity.
Defined.

(** ** WIP report *)

Ltac bind_inv H :=
  repeat match type of H with
         | obind ?m _ = Ok _ =>
             let E := fresh "E" in
             destruct m eqn:E; simpl in H; try discriminate H
         end.

Lemma column_entry_card (col_counts : gmap Py.key nat) (col_wrapper : json)
    (col : dict) :
  Py.get col_wrapper "ColumnItem" col_wrapper = Ok (JObj col) ->
  Py.lookup "type" col = Some (JStr "CARD") ->
  column_entry col_counts col_wrapper
  = (k <- Py.hash (column_id col);;
     let current := default 0 (col_counts !! k) in
     violations <- violations_of current (col_field col "minWIP")
                     (col_field col "maxWIP");;
     Ok (Some (report_entry col current violations))).
Proof.
  intros Hcol Htype. unfold column_entry. rewrite Hcol.
  cbn [obind]. unfold Py.get. rewrite Htype.
  reflexivity.
Qed.

Lemma column_entry_other (col_counts : gmap Py.key nat) (col_wrapper : json)
    (col : dict) :
  Py.get col_wrapper "ColumnItem" col_wrapper = Ok (JObj col) ->
  Py.is_str "CARD" (col_field col "type") = false ->
  column_entry col_counts col_wrapper = Ok None.
Proof.
  intros Hcol Htype. unfold column_entry. rewrite Hcol.
  cbn [obind]. unfold Py.get. unfold col_field in Htype.
  cbn [obind]. rewrite Htype. reflexivity.
Qed.

Lemma column_entry_typed (col_counts : gmap Py.key nat) (col_wrapper : json)
    (entry : option json) :
  column_entry col_counts col_wrapper = Ok entry ->
  card_typed col_wrapper = bool_decide (is_Some entry).
Proof.
  unfold column_entry, card_typed. intros H.
  destruct (Py.get col_wrapper "ColumnItem" col_wrapper) as [col| |];
    simpl in *; try discriminate.
  destruct (Py.get col "type" JNull) as [type| |]; simpl in *; try discriminate.
  destruct (Py.is_str "CARD" type); simpl in *.
  - bind_inv H. injection H as <-. reflexivity.
  - injection H as <-. reflexivity.
Qed.

Lemma wip_report_result (col_counts : gmap Py.key nat)
    (columns report res : list json) :
  wip_report columns col_counts report = Ok res ->
  exists entries,
    res = report ++ entries
    /\ Forall2 (fun col_wrapper entry =>
                  column_entry col_counts col_wrapper = Ok (Some entry))
         (List.filter card_typed columns) entries.
Proof.
  revert report. induction columns as [|c columns IH]; intros report H; simpl in H.
  - exists []. injection H as <-. rewrite app_nil_r. split; constructor.
  - destruct (column_entry col_counts c) as [entry| |] eqn:E;
      simpl in H; try discriminate.
    simpl. rewrite (column_entry_typed _ _ _ E).
    destruct (IH _ H) as (entries & -> & Hall).
    destruct entry as [e|].
    + exists (e :: entries). rewrite <- app_assoc.
      rewrite bool_decide_true by eauto.
      split; [reflexivity | constructor; assumption].
    + exists entries. rewrite bool_decide_false by (intros [? ?]; discriminate).
      split; [reflexivity | assumption].
Qed.

Lemma wip_report_skip (col_counts : gmap Py.key nat) (c : json)
    (before after report : list json) :
  column_entry col_counts c = Ok None ->
  wip_report (before ++ c :: after) col_counts report
  = wip_report (before ++ after) col_counts report.
Proof.
  intros Hc. revert report.
  induction before as [|b before IH]; intros report; simpl.
  - rewrite Hc. reflexivity.
  - destruct (column_entry col_counts b); simpl; [apply IH | reflexivity..].
Qed.

Lemma wip_report_returns (col_counts : gmap Py.key nat) (columns : list json) :
  Forall (fun c => exists entry, column_entry col_counts c = Ok entry) columns ->
  forall report, exists res, wip_report columns col_counts report = Ok res.
Proof.
  induction 1 as [|c columns [entry Hc] _ IH]; intros report; simpl.
  - eauto.
  - rewrite Hc. cbn [obind]. apply IH.
Qed.

(** C9.  A column whose type is not ["CARD"] gives no entry, whatever its
    thresholds and its card count: its loop body ends in [continue], and
    the report is the same as without the column.  The entries of a
    returned report are those of the CARD-typed columns, in the order of
    the column list, and a report is returned whenever the body of the loop
    goes through on every column. *)
Theorem non_card_columns_excluded (col_counts : gmap Py.key nat) :
  (forall (col_wrapper : json) (col : dict),
      Py.get col_wrapper "ColumnItem" col_wrapper = Ok (JObj col) ->
      Py.is_str "CARD" (col_field col "type") = false ->
      column_entry col_counts col_wrapper = Ok None
      /\ forall before after report,
          wip_report (before ++ col_wrapper :: after) col_counts report
          = wip_report (before ++ after) col_counts report)
  /\ (forall columns report,
         wip_report columns col_counts [] = Ok report ->
         Forall2 (fun col_wrapper entry =>
                    column_entry col_counts col_wrapper = Ok (Some entry))
           (List.filter card_typed columns) report)
  /\ (forall columns,
         Forall (fun c => exists entry, column_entry col_counts c = Ok entry)
           columns ->
         exists report, wip_report columns col_counts [] = Ok report).
Proof.
  split; [|split].
  - intros col_wrapper col Hcol Htype.
    pose proof (column_entry_other col_counts _ _ Hcol Htype) as Hnone.
    split; [exact Hnone|]. intros. apply wip_report_skip. exact Hnone.
  - intros columns report H.
    destruct (wip_report_result _ _ _ _ H) as (entries & -> & Hall).
    exact Hall.
  - intros columns H. apply wip_report_returns. exact H.
Qed.

(** An ARCHIVE column over its limit sits between two CARD columns: it
    gives no entry, and the report has the two CARD entries, in order. *)
Lemma non_card_columns_excluded_witness :
  let archive := JObj [("columnId", JStr "a"); ("type", JStr "ARCHIVE");
                       ("maxWIP", JNum 1)] in
  let todo := JObj [("columnId", JStr "todo"); ("type", JStr "CARD")] in
  let done := JObj [("ColumnItem",
                     JObj [("columnId", JStr "done"); ("type", JStr "CARD")])] in
  let col_counts : gmap Py.key nat := {[Py.KStr "a" := 9]} in
  column_entry col_counts archive = Ok None
  /\ wip_report [todo; archive; done] col_counts []
     = wip_report [todo; done] col_counts []
  /\ exists e1 e2,
       wip_report [todo; archive; done] col_counts [] = Ok [e1; e2]
       /\ column_entry col_counts todo = Ok (Some e1)
       /\ column_entry col_counts done = Ok (Some e2).
Proof.
  intros archive todo done col_counts.
  destruct (non_card_columns_excluded col_counts) as (Hskip & Horder & _).
  destruct (Hskip archive
              [("columnId", JStr "a"); ("type", JStr "ARCHIVE"); ("maxWIP", JNum 1)]
              eq_refl eq_refl) as [Hnone Hsame].
  split; [exact Hnone|]. split; [exact (Hsame [todo] [done] [])|].
  destruct (wip_report [todo; archive; done] col_counts []) as [report| |] eqn:E;
    try (vm_compute in E; discriminate E).
  specialize (Horder _ _ E).
  change (List.filter card_typed [todo; archive; done]) with [todo; done] in Horder.
  inversion Horder as [|? e1 ? r1 H1 Hrest]; subst.
  inversion Hrest as [|? e2 ? r2 H2 Hnil]; subst.
  inversion Hnil; subst.
  exists e1, e2. split; [reflexivity | split; assumption].
Defined.

(** *** Violations *)

Lemma violations_of_thresholds (current : nat) (min_wip max_wip : json)
    (mn mx : option Z) :
  threshold min_wip = Some mn -> threshold max_wip = Some mx ->
  violations_of current min_wip max_wip
  = Ok (violations_if_nonzero current mn mx).
Proof.
  intros Hmn Hmx. unfold violations_of, violations_if_nonzero.
  assert (Hover :
    (if Py.truthy max_wip then Py.int_gt (Z.of_nat current) max_wip else Ok false)
    = Ok (match mx with
          | Some m => negb (Z.eqb m 0) && Z.ltb m (Z.of_nat current)
          | None => false
          end)).
  { destruct max_wip; try discriminate; injection Hmx as <-; cbn.
    - reflexivity.
    - destruct (Z.eqb z 0); reflexivity. }
  assert (Hunder :
    (if Py.truthy min_wip then Py.int_lt (Z.of_nat current) min_wip else Ok false)
    = Ok (match mn with
          | Some m => Z.ltb (Z.of_nat current) m
          | None => false
          end)).
  { destruct min_wip; try discriminate; injection Hmn as <-; cbn.
    - reflexivity.
    - destruct (Z.eqb_spec z 0) as [->|]; cbn; [|reflexivity].
      f_equal. symmetry. apply Z.ltb_ge. lia. }
  rewrite Hover. cbn [obind]. rewrite Hunder. cbn [obind]. f_equal.
  destruct max_wip; try discriminate; injection Hmx as <-;
    destruct min_wip; try discriminate; injection Hmn as <-;
    repeat match goal with |- context [if ?b then _ else _] => destruct b end;
    reflexivity.
Qed.

(** C3 (as corrected).  For a CARD-typed column with limits that are absent
    or integers and with current count [c], the [violations] of its entry
    are ["over max (c/max)"] exactly when a maximum other than zero is set
    and [c] exceeds it, followed by ["under min (c/min)"] exactly when a
    minimum is set and [c] is below it, and nothing else; a maximum of zero
    is treated as no limit.  With minWIP 2 and maxWIP 5: count 7 gives
    [["over max (7/5)"]], count 1 gives [["under min (1/2)"]], count 3
    gives [[]]. *)
Theorem wip_violations (col_counts : gmap Py.key nat) (col_wrapper : json)
    (col : dict) (k : Py.key) (min_wip max_wip : option Z) :
  Py.get col_wrapper "ColumnItem" col_wrapper = Ok (JObj col) ->
  Py.lookup "type" col = Some (JStr "CARD") ->
  Py.hash (column_id col) = Ok k ->
  threshold (col_field col "minWIP") = Some min_wip ->
  threshold (col_field col "maxWIP") = Some max_wip ->
  column_entry col_counts col_wrapper
  = Ok (Some (report_entry col (default 0 (col_counts !! k))
                (violations_if_nonzero (default 0 (col_counts !! k))
                   min_wip max_wip)))
  /\ violations_of 7 (JNum 2) (JNum 5) = Ok [JStr "over max (7/5)"]
  /\ violations_of 1 (JNum 2) (JNum 5) = Ok [JStr "under min (1/2)"]
  /\ violations_of 3 (JNum 2) (JNum 5) = Ok [].
Proof.
  intros Hcol Htype Hk Hmn Hmx. split.
  - rewrite (column_entry_card _ _ _ Hcol Htype), Hk. cbn [obind].
    rewrite (violations_of_thresholds _ _ _ _ _ Hmn Hmx). reflexivity.
  - repeat split; vm_compute; reflexivity.
Qed.

(** The spec's column with seven cards in it. *)
Lemma wip_violations_witness :
  let col := [("columnId", JStr "c1"); ("type", JStr "CARD");
              ("minWIP", JNum 2); ("maxWIP", JNum 5)] in
  column_entry {[Py.KStr "c1" := 7]} (JObj [("ColumnItem", JObj col)])
  = Ok (Some (report_entry col 7 [JStr "over max (7/5)"])).
Proof.
  intros col.
  exact (proj1 (wip_violations {[Py.KStr "c1" := 7]}
                  (JObj [("ColumnItem", JObj col)]) col (Py.KStr "c1")
                  (Some 2%Z) (Some 5%Z) eq_refl eq_refl eq_refl eq_refl eq_refl)).
Defined.

(** C3 as stated fails: a column with [maxWIP = 0] and one card has a
    maximum that is set and exceeded, and its entry lists no violation. *)
Lemma wip_violations_zero_max_counterexample :
  let col := [("columnId", JStr "c1"); ("type", JStr "CARD"); ("maxWIP", JNum 0)] in
  threshold (col_field col "maxWIP") = Some (Some 0%Z)
  /\ violations_if_set 1 None (Some 0%Z) = [JStr "over max (1/0)"]
  /\ column_entry {[Py.KStr "c1" := 1]} (JObj col)
     = Ok (Some (report_entry col 1 []))
  /\ column_entry {[Py.KStr "c1" := 1]} (JObj col)
     <> Ok (Some (report_entry col 1 (violations_if_set 1 None (Some 0%Z)))).
Proof.
  intros col. split; [reflexivity|]. split; [vm_compute; reflexivity|].
  assert (H : column_entry {[Py.KStr "c1" := 1]} (JObj col)
              = Ok (Some (report_entry col 1 []))) by (vm_compute; reflexivity).
  split; [exact H|]. rewrite H. vm_compute. discriminate.
Qed.

(** *** Counting cards per column *)

Lemma count_columns_counts (cards : list json) (col_counts : gmap Py.key nat) :
  Forall countable_card cards ->
  exists counts,
    count_columns cards col_counts = Ok counts
    /\ forall k, default 0 (counts !! k)
                 = default 0 (col_counts !! k)
                   + length (List.filter (assigned_to k) cards).
Proof.
  intros H. revert col_counts.
  induction H as [|card cards (cid & Hcid & Hhash) _ IH]; intros col_counts.
  - exists col_counts. split; [reflexivity|]. intros k. simpl. apply plus_n_O.
  - assert (Ha : forall k,
               assigned_to k card
               = Py.truthy cid
                 && match Py.hash cid with
                    | Ok k' => bool_decide (k' = k)
                    | _ => false
                    end)
      by (intros k; unfold assigned_to; rewrite Hcid; reflexivity).
    simpl. rewrite Hcid. cbn [obind].
    destruct (Py.truthy cid) eqn:Htruthy.
    + destruct (Hhash eq_refl) as [k0 Hk0]. rewrite Hk0. cbn [obind].
      destruct (IH (<[k0:=default 0 (col_counts !! k0) + 1]> col_counts))
        as (counts & Hcounts & Hsum).
      exists counts. split; [exact Hcounts|]. intros k.
      rewrite Hsum, lookup_insert, Ha, Hk0. cbn [andb].
      destruct (decide (k0 = k)) as [->|Hne].
      * rewrite bool_decide_true by reflexivity. simpl.
        generalize (default 0 (col_counts !! k)). intros n. lia.
      * rewrite bool_decide_false by exact Hne. reflexivity.
    + destruct (IH col_counts) as (counts & Hcounts & Hsum).
      exists counts. split; [exact Hcounts|]. intros k.
      rewrite Hsum, Ha. reflexivity.
Qed.

Lemma count_columns_unassigned (card : json) (before after : list json)
    (col_counts : gmap Py.key nat) :
  unassigned card ->
  count_columns (before ++ card :: after) col_counts
  = count_columns (before ++ after) col_counts.
Proof.
  intros (cid & Hcid & Hfalse). revert col_counts.
  induction before as [|b before IH]; intros col_counts; simpl.
  - rewrite Hcid. cbn [obind]. rewrite Hfalse. reflexivity.
  - destruct (get_card_field b "columnId") as [c| |]; cbn [obind];
      [|reflexivity..].
    destruct (Py.truthy c); [|apply IH].
    destruct (Py.hash c); cbn [obind]; [apply IH | reflexivity..].
Qed.

(** The filters never read the column identifier of a card. *)
Lemma get_card_field_set_other (d : dict) (k f : string) (v : json) :
  f <> k -> k <> "CardItem" ->
  get_card_field (JObj (Py.set k v d)) f = get_card_field (JObj d) f.
Proof.
  intros Hf Hk. unfold get_card_field, Py.contains, Py.getitem, Py.get.
  rewrite !lookup_set_ne by congruence. reflexivity.
Qed.

Lemma when_given_ext (o : option string) (f g : string -> outcome bool) :
  (forall s, f s = g s) -> when_given o f = when_given o g.
Proof.
  intros H. destruct o as [s|]; simpl; [|reflexivity].
  destruct (String.eqb s ""); [reflexivity | apply H].
Qed.

Lemma skipped_ignores_column (d : dict) (v : json)
    (label owner column priority : option string) (blocked : bool)
    (query : option string) :
  skipped (JObj (Py.set "columnId" v d)) label owner column priority blocked query
  = skipped (JObj d) label owner column priority blocked query.
Proof.
  unfold skipped.
  rewrite (when_given_ext label _ (differs_lower (JObj d) "label")),
    (when_given_ext owner _ (differs_lower (JObj d) "owner")),
    (when_given_ext column _ (differs_lower (JObj d) "columnTitle")),
    (when_given_ext priority _ (differs_str (JObj d) "priority")),
    (when_given_ext query _ (query_misses (JObj d))),
    (get_card_field_set_other d "columnId" "blocked" v);
    try reflexivity; try discriminate;
    intros s; unfold differs_lower, differs_str, query_misses;
    rewrite ?get_card_field_set_other by discriminate; reflexivity.
Qed.

(** C7 (as corrected).  When the counting loop goes through, the count of a
    key is the number of records whose column identifier is a true value
    equal to it, and this is the [currentCards] of the entry of every
    CARD-typed column with that identifier; a record whose column identifier is absent or
    otherwise false ([None], empty, zero) adds to no count, the counts being
    the same without it; and the filters give the same verdict on a record
    whatever its column identifier, so such a record stays in filtered
    results. *)
Theorem column_counts_exclude_unassigned (cards : list json) :
  Forall countable_card cards ->
  exists counts,
    count_columns cards ∅ = Ok counts
    /\ (forall k, default 0 (counts !! k)
                  = length (List.filter (assigned_to k) cards))
    /\ (forall col_wrapper col k,
           Py.get col_wrapper "ColumnItem" col_wrapper = Ok (JObj col) ->
           Py.lookup "type" col = Some (JStr "CARD") ->
           Py.hash (column_id col) = Ok k ->
           let current := length (List.filter (assigned_to k) cards) in
           column_entry counts col_wrapper
           = (violations <- violations_of current (col_field col "minWIP")
                              (col_field col "maxWIP");;
              Ok (Some (report_entry col current violations)))
           /\ forall violations,
               Py.get (report_entry col current violations) "currentCards" JNull
               = Ok (JNum (Z.of_nat current)))
    /\ (forall before card after,
           cards = before ++ card :: after -> unassigned card ->
           count_columns (before ++ after) ∅ = Ok counts
           /\ forall k, assigned_to k card = false)
    /\ (forall d v label owner column priority blocked query,
           skipped (JObj (Py.set "columnId" v d))
             label owner column priority blocked query
           = skipped (JObj d) label owner column priority blocked query).
Proof.
  intros Hcards.
  destruct (count_columns_counts cards ∅ Hcards) as (counts & Hcounts & Hsum).
  exists counts. split; [exact Hcounts|].
  assert (Hcount : forall k, default 0 (counts !! k)
                             = length (List.filter (assigned_to k) cards)).
  { intros k. rewrite Hsum, lookup_empty. reflexivity. }
  split; [exact Hcount|]. split; [|split].
  - intros col_wrapper col k Hcol Htype Hk current. split; [|reflexivity].
    rewrite (column_entry_card _ _ _ Hcol Htype), Hk. cbn [obind].
    rewrite Hcount. reflexivity.
  - intros before card after -> Hun. split.
    + rewrite <- Hcounts. symmetry. apply count_columns_unassigned. exact Hun.
    + intros k. destruct Hun as (cid & Hcid & Hfalse).
      unfold assigned_to. rewrite Hcid, Hfalse. reflexivity.
  - intros. apply skipped_ignores_column.
Qed.

(** One record under column ["c1"], one in the wrapper shape, one without
    column and one with a null column: two are counted for ["c1"]. *)
Lemma column_counts_exclude_unassigned_witness :
  exists counts,
    count_columns
      [JObj [("title", JStr "a"); ("columnId", JStr "c1")];
       JObj [("title", JStr "b")];
       JObj [("CardItem", JObj [("columnId", JStr "c1")])];
       JObj [("columnId", JNull)]] ∅ = Ok counts
    /\ default 0 (counts !! Py.KStr "c1") = 2.
Proof.
  destruct (column_counts_exclude_unassigned
              [JObj [("title", JStr "a"); ("columnId", JStr "c1")];
               JObj [("title", JStr "b")];
               JObj [("CardItem", JObj [("columnId", JStr "c1")])];
               JObj [("columnId", JNull)]])
    as (counts & Hcounts & Hsum & _).
  - repeat constructor.
    + exists (JStr "c1"). split; [reflexivity | intros _; eexists; reflexivity].
    + exists JNull. split; [reflexivity | discriminate].
    + exists (JStr "c1"). split; [reflexivity | intros _; eexists; reflexivity].
    + exists JNull. split; [reflexivity | discriminate].
  - exists counts. split; [exact Hcounts|]. rewrite Hsum. reflexivity.
Defined.

(** C7 as stated fails: two records carry the column identifier [0] and one
    the identifier [""]; the columns with these identifiers report no card. *)
Lemma column_counts_false_identifier_counterexample :
  let cards := [JObj [("columnId", JNum 0)]; JObj [("columnId", JNum 0)];
                JObj [("columnId", JStr "")]] in
  let col0 := [("columnId", JNum 0); ("type", JStr "CARD")] in
  let col1 := [("columnId", JStr ""); ("type", JStr "CARD")] in
  exists counts,
    count_columns cards ∅ = Ok counts
    /\ length (List.filter (resolves_to (Py.KInt 0)) cards) = 2
    /\ column_entry counts (JObj col0) = Ok (Some (report_entry col0 0 []))
    /\ length (List.filter (resolves_to (Py.KStr "")) cards) = 1
    /\ column_entry counts (JObj col1) = Ok (Some (report_entry col1 0 [])).
Proof.
  intros cards col0 col1. exists ∅.
  repeat split; vm_compute; reflexivity.
Qed.

(** ** Pagination *)

Lemma set_set (k : string) (v v' : json) (d : dict) :
  Py.set k v (Py.set k v' d) = Py.set k v d.
Proof.
  induction d as [|[k0 v0] d IH]; simpl.
  - rewrite String.eqb_refl. reflexivity.
  - destruct (String.eqb k0 k) eqn:E; simpl; rewrite E; [reflexivity|].
    rewrite IH. reflexivity.
Qed.

Lemma params_at_next (board : json) (include_archived : bool) (p : nat) :
  1 <= p ->
  Py.set "page" (JNum (Z.of_nat (p + 1))) (params_at board include_archived p)
  = params_at board include_archived (p + 1).
Proof.
  intros Hp. unfold params_at.
  replace (Nat.eqb (p + 1) 1) with false
    by (symmetry; apply Nat.eqb_neq; lia).
  destruct (Nat.eqb p 1); [reflexivity | apply set_set].
Qed.

Lemma api_request_sent (w : world) (method path : string) (params : dict) :
  given (api_key w) = true ->
  api_request method path (Some params) None w
  = (let req := {| method := method; path := path;
                   params := List.filter not_none params; body := None |} in
     (Ok (server w (sent w) req), with_sent w [req])).
Proof.
  intros Hkey. unfold api_request, bindM, get_api_key. rewrite Hkey.
  reflexivity.
Qed.

Lemma after_pages_next (w : world) (board : json) (include_archived : bool)
    (p : nat) :
  with_sent (after_pages w board include_archived p)
    [cards_request board include_archived (p + 1)]
  = after_pages w board include_archived (p + 1).
Proof.
  unfold after_pages, with_sent. simpl.
  rewrite Nat.add_1_r, seq_S, fmap_app, app_assoc. reflexivity.
Qed.

Section Paging.

Variable w : world.
Variable board : json.
Variable include_archived : bool.
Hypothesis key_set : given (api_key w) = true.

Local Abbreviation resp := (response_at w board include_archived).
Local Abbreviation after := (after_pages w board include_archived).
Local Abbreviation params_of := (params_at board include_archived).

(** One more request from the state reached after page [p] *)
Lemma request_next (p : nat) :
  1 <= p ->
  api_request "GET" "/cards"
    (Some (Py.set "page" (JNum (Z.of_nat (p + 1))) (params_of p))) None (after p)
  = (Ok (resp (p + 1)), after (p + 1)).
Proof.
  intros Hp. rewrite api_request_sent by exact key_set.
  rewrite params_at_next by exact Hp. cbv zeta.
  change {| method := "GET"; path := "/cards";
            params := List.filter not_none (params_of (p + 1)); body := None |}
    with (cards_request board include_archived (p + 1)).
  rewrite after_pages_next. unfold response_at.
  replace (p + 1 - 1) with p by lia. reflexivity.
Qed.

(** The loop from page [p] on: pages [p+1 .. p+k] are good, every page
    before the last says [hasMore], and the loop ends either on a last page
    without [hasMore] or on an error at page [p+k+1]. *)
Lemma fetch_pages_run (recs : nat -> list json) (k : nat) :
  forall (p fuel : nat) (acc : list json) (stop : bool),
    1 <= p -> k < fuel ->
    (forall q, p <= q <= p + k ->
               exists r, good_page (resp q) r (negb (stop && Nat.eqb q (p + k)))) ->
    (forall q, p < q <= p + k -> good_page (resp q) (recs q) (negb (stop && Nat.eqb q (p + k)))) ->
    (stop = false -> error_page (resp (p + k + 1))) ->
    fetch_pages fuel (params_of p) (resp p) (JArr acc) (p + 1) (after p)
    = (Ok (JArr (acc ++ flat_map recs (seq (p + 1) k))),
       after (if stop then p + k else p + k + 1)).
Proof.
  induction k as [|k IH]; intros p fuel acc stop Hp Hfuel Hfirst Hgood Hend;
    destruct fuel as [|fuel]; try lia; cbn [fetch_pages];
    destruct (Hfirst p ltac:(lia)) as (r & d & Hd & _ & _ & Hmore);
    rewrite Hd; unfold bindM at 1; cbn [liftM Py.get]; rewrite Hmore.
  - rewrite Nat.add_0_r, Nat.eqb_refl, andb_true_r.
    destruct stop; cbn [negb].
    + cbn [seq flat_map]. rewrite app_nil_r. reflexivity.
    + unfold bindM at 1. rewrite request_next by exact Hp.
      destruct (Hend eq_refl) as (d' & Hd' & Herr).
      rewrite Nat.add_0_r in Hd'. rewrite Hd'.
      unfold bindM at 1. cbn [liftM Py.get]. rewrite Herr.
      cbn [seq flat_map]. rewrite app_nil_r. reflexivity.
  - replace (Nat.eqb p (p + S k)) with false
      by (symmetry; apply Nat.eqb_neq; lia).
    rewrite andb_false_r. cbn [negb].
    unfold bindM at 1. rewrite request_next by exact Hp.
    destruct (Hgood (p + 1) ltac:(lia)) as (d' & Hd' & Herr & Hcards & _).
    rewrite Hd'. unfold bindM at 1. cbn [liftM Py.get]. rewrite Herr.
    unfold bindM at 1. cbn [liftM]. rewrite Hcards.
    unfold bindM at 1. cbn [liftM Py.extend Py.iter obind].
    rewrite <- Hd', params_at_next by exact Hp.
    rewrite (IH (p + 1) fuel (acc ++ recs (p + 1)) stop); try lia.
    + replace (p + 1 + k) with (p + S k) by lia.
      cbn [seq flat_map]. rewrite <- app_assoc.
      replace (S (p + 1)) with (p + 1 + 1) by lia.
      replace (S p) with (p + 1) by lia. reflexivity.
    + intros q Hq. replace (p + 1 + k) with (p + S k) by lia.
      exists (recs q). apply Hgood. lia.
    + intros q Hq. replace (p + 1 + k) with (p + S k) by lia.
      apply Hgood. lia.
    + replace (p + 1 + k + 1) with (p + S k + 1) by lia. exact Hend.
Qed.

(** The first request *)
Lemma request_first :
  api_request "GET" "/cards" (Some (base_params board include_archived)) None w
  = (Ok (resp 1), after 1).
Proof.
  rewrite api_request_sent by exact key_set. cbv zeta.
  unfold response_at, after_pages, with_sent. simpl.
  rewrite app_nil_r. reflexivity.
Qed.

(** The whole of [fetch_all_cards] on [n] good pages. *)
Lemma fetch_all_cards_run (recs : nat -> list json) (n fuel : nat) (stop : bool) :
  1 <= n -> n <= fuel ->
  (forall q, 1 <= q <= n ->
             good_page (resp q) (recs q) (negb (stop && Nat.eqb q n))) ->
  (stop = false -> error_page (resp (n + 1))) ->
  fetch_all_cards board include_archived fuel w
  = (Ok (JArr (flat_map recs (seq 1 n))), after (if stop then n else n + 1)).
Proof.
  intros Hn Hfuel Hgood Hend. unfold fetch_all_cards.
  unfold bindM at 1. rewrite request_first.
  destruct (Hgood 1 ltac:(lia)) as (d & Hd & Herr & Hcards & _).
  rewrite Hd. unfold bindM at 1. cbn [liftM Py.get]. rewrite Herr.
  unfold bindM at 1. cbn [liftM]. rewrite Hcards, <- Hd.
  change (base_params board include_archived) with (params_of 1).
  change 2 with (1 + 1) at 1.
  rewrite (fetch_pages_run recs (n - 1) 1 fuel (recs 1) stop); try lia.
  - replace (1 + (n - 1)) with n by lia.
    destruct n as [|n']; [lia|]. cbn [seq flat_map].
    replace (S n' - 1) with n' by lia. reflexivity.
  - intros q Hq. replace (1 + (n - 1)) with n by lia.
    exists (recs q). apply Hgood. lia.
  - intros q Hq. replace (1 + (n - 1)) with n by lia. apply Hgood. lia.
  - replace (1 + (n - 1) + 1) with (n + 1) by lia. exact Hend.
Qed.

End Paging.

(** *** A transport that is a function of the page number *)

Lemma page_number_cards_request (board : json) (include_archived : bool)
    (p : nat) :
  1 <= p -> page_number (cards_request board include_archived p) = p.
Proof.
  intros Hp. unfold page_number, cards_request, params_at, base_params.
  destruct (Nat.eqb_spec p 1) as [->|Hne].
  - destruct include_archived, board; reflexivity.
  - destruct include_archived, board; cbn; apply Nat2Z.id.
Qed.

Lemma good_page_doc (pg : page) :
  good_page (page_doc pg) (records pg) (hasMore pg).
Proof.
  exists [("cards", JArr (records pg)); ("hasMore", JBool (hasMore pg))].
  repeat split.
Qed.

(** C1.  Pagination is complete: when the transport answers the request
    for page [p] with the page [pages p] ([records], [hasMore]), [hasMore]
    being true on every page before page [n] and false on page [n], then
    [fetch_all_cards] (the API key being set, with fuel for [n] tests of
    its loop) returns the
    records of pages [1..n] concatenated in page order, nothing dropped and
    nothing repeated, after exactly [n] requests; with three pages of 100,
    100 and 37 records it returns these 237 records in page order. *)
Theorem fetch_all_cards_complete (w : world) (pages : nat -> page) (n : nat)
    (board : json) (include_archived : bool) (fuel : nat) :
  given (api_key w) = true ->
  server w = paged pages ->
  1 <= n ->
  (forall p, 1 <= p < n -> hasMore (pages p) = true) ->
  hasMore (pages n) = false ->
  n <= fuel ->
  fetch_all_cards board include_archived fuel w
  = (Ok (JArr (flat_map (fun p => records (pages p)) (seq 1 n))),
     after_pages w board include_archived n)
  /\ (n = 3 ->
      length (records (pages 1)) = 100 ->
      length (records (pages 2)) = 100 ->
      length (records (pages 3)) = 37 ->
      exists cards,
        (fetch_all_cards board include_archived fuel w).1 = Ok (JArr cards)
        /\ cards = records (pages 1) ++ records (pages 2) ++ records (pages 3)
        /\ length cards = 237).
Proof.
  intros Hkey Hserver Hn Hmore Hlast Hfuel.
  assert (Hrun :
    fetch_all_cards board include_archived fuel w
    = (Ok (JArr (flat_map (fun p => records (pages p)) (seq 1 n))),
       after_pages w board include_archived n)).
  { apply (fetch_all_cards_run w board include_archived Hkey
             (fun p => records (pages p)) n fuel true Hn Hfuel);
      [|discriminate].
    intros q Hq. unfold response_at. rewrite Hserver. unfold paged.
    rewrite page_number_cards_request by lia.
    replace (negb (true && Nat.eqb q n)) with (hasMore (pages q)).
    - apply good_page_doc.
    - destruct (Nat.eqb_spec q n) as [->|Hne]; cbn.
      + exact Hlast.
      + apply Hmore. lia. }
  split; [exact Hrun|].
  intros -> H1 H2 H3. rewrite Hrun. cbn [fst seq flat_map].
  eexists. split; [reflexivity|]. rewrite app_nil_r.
  split; [reflexivity|]. rewrite !length_app. lia.
Qed.

Lemma fetch_all_cards_complete_witness :
  exists cards,
    (fetch_all_cards (JStr "b1") false 3 (mock_world (paged mock_pages))).1
    = Ok (JArr cards)
    /\ cards = repeat (JObj [("title", JStr "first")]) 100
               ++ repeat (JObj [("title", JStr "second")]) 100
               ++ repeat (JObj [("title", JStr "third")]) 37
    /\ length cards = 237.
Proof.
  apply (fetch_all_cards_complete (mock_world (paged mock_pages)) mock_pages 3
           (JStr "b1") false 3); try reflexivity; try lia.
  intros p Hp. assert (p = 1 \/ p = 2) as [-> | ->] by lia; reflexivity.
Defined.

(** C2.  Partial failure: when the first request returns an error document,
    [fetch_all_cards] returns that document and nothing else; when pages
    [1..k] are good and say [hasMore] and the request for page [k+1]
    returns an error document, [fetch_all_cards] (the API key being set,
    with fuel for [k] tests of its loop) stops there and returns the
    records of pages [1..k], a list and no error.  The transport is any
    [server]: its answers may depend on the requests made before. *)
Theorem fetch_all_cards_partial_failure (w : world) (board : json)
    (include_archived : bool) (fuel : nat) :
  (forall doc w',
      api_request "GET" "/cards" (Some (base_params board include_archived)) None w
      = (Ok doc, w') ->
      error_page doc ->
      fetch_all_cards board include_archived fuel w = (Ok doc, w'))
  /\ (forall (recs : nat -> list json) (k : nat),
         given (api_key w) = true ->
         1 <= k -> k <= fuel ->
         (forall q, 1 <= q <= k ->
                    good_page (response_at w board include_archived q) (recs q) true) ->
         error_page (response_at w board include_archived (k + 1)) ->
         fetch_all_cards board include_archived fuel w
         = (Ok (JArr (flat_map recs (seq 1 k))),
            after_pages w board include_archived (k + 1))).
Proof.
  split.
  - intros doc w' Hreq (d & -> & Herr).
    unfold fetch_all_cards. unfold bindM at 1. rewrite Hreq.
    unfold bindM at 1. cbn [liftM Py.get]. rewrite Herr. reflexivity.
  - intros recs k Hkey Hk Hfuel Hgood Herr.
    apply (fetch_all_cards_run w board include_archived Hkey recs k fuel false
             Hk Hfuel); [|intros _; exact Herr].
    intros q Hq. cbn [andb negb]. apply Hgood. exact Hq.
Qed.

(** The spec's instances: an error on page 2 leaves the 100 records of page
    1; an error on the first request is returned as it is. *)
Lemma fetch_all_cards_partial_failure_witness :
  (fetch_all_cards (JStr "b1") false 5 (mock_world fails_after_first)).1
  = Ok (JArr (repeat (JObj [("title", JStr "first")]) 100))
  /\ (fetch_all_cards (JStr "b1") false 5 (mock_world (fun _ _ => http_500))).1
     = Ok http_500.
Proof.
  split.
  - rewrite (proj2 (fetch_all_cards_partial_failure
                      (mock_world fails_after_first) (JStr "b1") false 5)
               (fun _ => repeat (JObj [("title", JStr "first")]) 100) 1);
      try reflexivity; try lia.
    + intros q Hq. assert (q = 1) as -> by lia.
      eexists. split; [reflexivity|]. repeat split.
    + eexists. split; [reflexivity|]. reflexivity.
  - rewrite (proj1 (fetch_all_cards_partial_failure
                      (mock_world (fun _ _ => http_500)) (JStr "b1") false 5)
               http_500 (with_sent (mock_world (fun _ _ => http_500))
                           [cards_request (JStr "b1") false 1]));
      try reflexivity.
    eexists. split; reflexivity.
Defined.

(** ** Cross-board search: the guard *)

Lemma monotone_ret {A} (a : A) : monotone (retM a).
Proof. intros w. exists []. simpl. rewrite app_nil_r. reflexivity. Qed.

Lemma monotone_lift {A} (o : outcome A) : monotone (liftM o).
Proof. intros w. exists []. simpl. rewrite app_nil_r. reflexivity. Qed.

Lemma monotone_output (data : json) : monotone (output data).
Proof. intros w. exists []. simpl. rewrite app_nil_r. reflexivity. Qed.

Lemma monotone_error_exit {A} (message : string) :
  monotone (error_exit (A := A) message).
Proof. intros w. exists []. simpl. rewrite app_nil_r. reflexivity. Qed.

Lemma monotone_bind {A B} (m : M A) (k : A -> M B) :
  monotone m -> (forall a, monotone (k a)) -> monotone (bindM m k).
Proof.
  intros Hm Hk w. unfold bindM. destruct (Hm w) as [l1 Hl1].
  destruct (m w) as [[a|e|] w1]; simpl in Hl1.
  - destruct (Hk a w1) as [l2 Hl2]. exists (l1 ++ l2).
    rewrite Hl2, Hl1, app_assoc. reflexivity.
  - exists l1. exact Hl1.
  - exists l1. exact Hl1.
Qed.

Lemma monotone_api_request (method path : string) (params : option dict)
    (body : option json) : monotone (api_request method path params body).
Proof.
  unfold api_request. apply monotone_bind.
  - intros w. unfold get_api_key. destruct (given (api_key w));
      exists []; simpl; rewrite app_nil_r; reflexivity.
  - intros _ w. eexists. reflexivity.
Qed.

Lemma monotone_if {A} (b : bool) (m1 m2 : M A) :
  monotone m1 -> monotone m2 -> monotone (if b then m1 else m2).
Proof. destruct b; auto. Qed.

Create HintDb mono.

#[local] Hint Resolve monotone_ret monotone_lift monotone_output
  monotone_error_exit monotone_api_request : mono.

Ltac mono :=
  repeat first
    [ solve [eauto with mono]
    | apply monotone_bind; [|intros ?]
    | apply monotone_if ].

Lemma monotone_fetch_pages (fuel : nat) :
  forall params cards_data all_cards page,
    monotone (fetch_pages fuel params cards_data all_cards page).
Proof.
  induction fuel as [|fuel IH]; intros; cbn [fetch_pages]; mono.
Qed.

#[local] Hint Resolve monotone_fetch_pages : mono.

Lemma monotone_fetch_all_cards (board : json) (include_archived : bool)
    (fuel : nat) : monotone (fetch_all_cards board include_archived fuel).
Proof. unfold fetch_all_cards. mono. Qed.

#[local] Hint Resolve monotone_fetch_all_cards : mono.

Lemma monotone_search_boards (a : args) (fuel : nat) (boards : list json) :
  forall all_results, monotone (search_boards a fuel boards all_results).
Proof.
  induction boards as [|b boards IH]; intros; cbn [search_boards]; mono.
Qed.

#[local] Hint Resolve monotone_search_boards : mono.

Lemma nothing_to_search_narrowing (a : args) :
  nothing_to_search a = negb (narrowing a).
Proof.
  unfold nothing_to_search, narrowing.
  destruct (given (arg_query a)), (given (arg_label a)), (given (arg_owner a)),
    (given (arg_priority a)), (arg_blocked a); reflexivity.
Qed.

Lemma search_all_requests (a : args) (fuel : nat) (w : world) :
  given (api_key w) = true ->
  exists rest, sent (search_all a fuel w).2 = sent w ++ boards_request :: rest.
Proof.
  intros Hkey. unfold search_all. unfold bindM at 1.
  unfold api_request at 1, bindM at 1, get_api_key. rewrite Hkey.
  cbn [urlopen].
  match goal with
  | |- context [bindM ?m ?k ?w1] =>
      assert (Hrest : monotone (bindM m k))
  end.
  { mono. }
  match goal with
  | |- exists rest, sent (?f ?w1).2 = _ =>
      destruct (Hrest w1) as [rest Hsent]; exists rest; rewrite Hsent
  end.
  cbn [sent]. rewrite <- app_assoc. reflexivity.
Qed.

(** C5 (as corrected).  [cmd_search_cards] with no query and no filter, or
    with empty ones only, ends at once in the usage error (exit code 1, the
    usage document printed) and sends no request; with a non-empty query or
    filter value, or with [--blocked], the guard does not fire: the command
    is the search itself, its outcome is not the usage error, and with a
    key configured its first act is the request for the boards. *)
Theorem search_guard (a : args) (fuel : nat) (w : world) :
  (narrowing a = false ->
   cmd_search_cards a fuel w = usage_exit w
   /\ sent (cmd_search_cards a fuel w).2 = sent w)
  /\ (narrowing a = true ->
      cmd_search_cards a fuel w = search_all a fuel w
      /\ cmd_search_cards a fuel w <> usage_exit w
      /\ (given (api_key w) = true ->
          exists rest,
            sent (cmd_search_cards a fuel w).2 = sent w ++ boards_request :: rest)).
Proof.
  unfold cmd_search_cards. rewrite nothing_to_search_narrowing. split.
  - intros ->. split; reflexivity.
  - intros ->. cbn [negb]. split; [reflexivity|]. split.
    + destruct (given (api_key w)) eqn:Hkey.
      * destruct (search_all_requests a fuel w Hkey) as [rest Hsent].
        intros Heq. rewrite Heq in Hsent. cbn in Hsent.
        apply (f_equal length) in Hsent.
        rewrite length_app in Hsent. cbn in Hsent. lia.
      * unfold search_all. unfold bindM at 1.
        unfold api_request, bindM at 1, get_api_key. rewrite Hkey.
        unfold usage_exit, error_exit, print. intros Heq.
        injection Heq as Heq. apply app_inv_head in Heq. discriminate Heq.
    + apply search_all_requests.
Qed.

(** Without arguments the command prints the usage error and sends
    nothing; with [--label Urgent] it asks for the boards. *)
Lemma search_guard_witness :
  (cmd_search_cards no_args 1 (mock_world no_boards)
   = usage_exit (mock_world no_boards)
   /\ sent (cmd_search_cards no_args 1 (mock_world no_boards)).2 = [])
  /\ exists rest,
      sent (cmd_search_cards (label_args "Urgent") 1 (mock_world no_boards)).2
      = boards_request :: rest.
Proof.
  split.
  - exact (proj1 (search_guard no_args 1 (mock_world no_boards)) eq_refl).
  - exact (proj2 (proj2 (proj2 (search_guard (label_args "Urgent") 1
                                  (mock_world no_boards)) eq_refl)) eq_refl).
Defined.

(** C5 as stated fails: [--query ""] supplies a query, and the guard
    fires all the same. *)
Lemma search_guard_empty_query_counterexample :
  let a := {| arg_board := None; arg_query := Some ""; arg_label := None;
              arg_owner := None; arg_priority := None; arg_blocked := false;
              arg_include_archived := false |} in
  supplied a
  /\ cmd_search_cards a 1 (mock_world no_boards) = usage_exit (mock_world no_boards).
Proof.
  intros a. split; [left; discriminate | reflexivity].
Qed.

(** ** The WIP check as a whole *)

Example cmd_wip_check_sample :
  stdout (cmd_wip_check wip_args 1 (mock_world wip_board)).2
  = [JObj [("board", JStr "b1");
           ("columns",
            JArr [JObj [("columnId", JStr "c1");
                        ("columnTitle", JStr "Doing");
                        ("columnState", JNull);
                        ("currentCards", JNum 7);
                        ("minWIP", JNum 2);
                        ("maxWIP", JNum 5);
                        ("violations", JArr [JStr "over max (7/5)"])];
                  JObj [("columnId", JStr "c2");
                        ("columnTitle", JNull);
                        ("columnState", JNull);
                        ("currentCards", JNum 0);
                        ("minWIP", JNum 1);
                        ("maxWIP", JNull);
                        ("violations", JArr [JStr "under min (0/1)"])]])]]
  /\ length (sent (cmd_wip_check wip_args 1 (mock_world wip_board)).2) = 2.
Proof. split; vm_compute; reflexivity. Qed.

(** * Further properties *)

(** ** What every subcommand leaves alone *)

Section Runs.

Variable R : world -> world -> Prop.
Hypothesis R_refl : forall w, R w w.
Hypothesis R_trans : forall w1 w2 w3, R w1 w2 -> R w2 w3 -> R w1 w3.
Hypothesis R_print : forall doc w, R w (print doc w).
Hypothesis R_request :
  forall method path params body, respects R (api_request method path params body).

Lemma respects_ret {A} (a : A) : respects R (retM a).
Proof. intros w. apply R_refl. Qed.

Lemma respects_lift {A} (o : outcome A) : respects R (liftM o).
Proof. intros w. apply R_refl. Qed.

Lemma respects_output (data : json) : respects R (output data).
Proof. intros w. apply R_print. Qed.

Lemma respects_error_exit {A} (message : string) :
  respects R (error_exit (A := A) message).
Proof. intros w. apply R_print. Qed.

Lemma respects_bind {A B} (m : M A) (k : A -> M B) :
  respects R m -> (forall a, respects R (k a)) -> respects R (bindM m k).
Proof.
  intros Hm Hk w. unfold bindM. specialize (Hm w).
  destruct (m w) as [[a|e|] w1]; simpl in *; try exact Hm.
  eapply R_trans; [exact Hm | apply Hk].
Qed.

Lemma respects_require_board (board : option string) :
  respects R (require_board board).
Proof.
  intros w. unfold require_board.
  destruct (given (if given board then board else default_board w));
    [apply R_refl | apply R_print].
Qed.

Create HintDb runs.

#[local] Hint Resolve respects_ret respects_lift respects_output
  respects_error_exit respects_require_board R_request : runs.

Ltac runs :=
  repeat first
    [ solve [eauto with runs]
    | apply respects_bind; [|intros ?]
    | match goal with
      | |- respects _ (if ?b then _ else _) => destruct b
      | |- respects _ (match ?x with _ => _ end) => destruct x
      end ].

Lemma respects_fetch_pages (fuel : nat) :
  forall params cards_data all_cards page,
    respects R (fetch_pages fuel params cards_data all_cards page).
Proof. induction fuel as [|fuel IH]; intros; cbn [fetch_pages]; runs. Qed.

#[local] Hint Resolve respects_fetch_pages : runs.

Lemma respects_fetch_all_cards (board : json) (include_archived : bool)
    (fuel : nat) : respects R (fetch_all_cards board include_archived fuel).
Proof. unfold fetch_all_cards. runs. Qed.

#[local] Hint Resolve respects_fetch_all_cards : runs.

Lemma respects_search_boards (a : args) (fuel : nat) (boards : list json) :
  forall all_results, respects R (search_boards a fuel boards all_results).
Proof.
  induction boards as [|b boards IH]; intros; cbn [search_boards]; runs.
Qed.

Lemma respects_parse_fields_loop (raw_list : list string) :
  forall fields, respects R (parse_fields_loop raw_list fields).
Proof.
  induction raw_list as [|item rest IH]; intros; cbn [parse_fields_loop]; runs.
Qed.

#[local] Hint Resolve respects_search_boards respects_parse_fields_loop : runs.

Lemma respects_set_custom_fields (custom_field : list string) (body : dict) :
  respects R (set_custom_fields custom_field body).
Proof. unfold set_custom_fields, parse_custom_fields. runs. Qed.

#[local] Hint Resolve respects_set_custom_fields : runs.

Lemma respects_run (c : command) : respects R (run c).
Proof.
  destruct c; cbn [run];
    unfold cmd_boards, cmd_board, cmd_cards, cmd_card, cmd_create_card,
      cmd_create_cards, cmd_update_card, cmd_move_card, cmd_link_card,
      cmd_unlink_card, cmd_search_cards, search_all, cmd_wip_check;
    runs.
Qed.

End Runs.

Lemma frame_refl (w : world) : frame w w.
Proof.
  repeat split; try reflexivity; exists []; rewrite app_nil_r; reflexivity.
Qed.

Lemma frame_trans (w1 w2 w3 : world) : frame w1 w2 -> frame w2 w3 -> frame w1 w3.
Proof.
  intros (Hk1 & Hb1 & Hs1 & [r1 Hr1] & [d1 Hd1])
         (Hk2 & Hb2 & Hs2 & [r2 Hr2] & [d2 Hd2]).
  repeat split; try congruence.
  - exists (r1 ++ r2). rewrite Hr2, Hr1, app_assoc. reflexivity.
  - exists (d1 ++ d2). rewrite Hd2, Hd1, app_assoc. reflexivity.
Qed.

Lemma frame_print (doc : json) (w : world) : frame w (print doc w).
Proof.
  repeat split; simpl; [exists []; rewrite app_nil_r | exists [doc]]; reflexivity.
Qed.

Lemma frame_request (method path : string) (params : option dict)
    (body : option json) : respects frame (api_request method path params body).
Proof.
  intros w. unfold api_request, bindM, get_api_key.
  destruct (given (api_key w)).
  - repeat split; simpl; [eexists | exists []; rewrite app_nil_r]; reflexivity.
  - apply frame_print.
Qed.

Lemma offline_refl (w : world) : offline w w.
Proof. split; reflexivity. Qed.

Lemma offline_trans (w1 w2 w3 : world) :
  offline w1 w2 -> offline w2 w3 -> offline w1 w3.
Proof.
  intros [Hk1 Hs1] [Hk2 Hs2]. split; [congruence|].
  intros Hkey. rewrite Hs2, Hs1; congruence.
Qed.

Lemma offline_print (doc : json) (w : world) : offline w (print doc w).
Proof. split; reflexivity. Qed.

Lemma offline_request (method path : string) (params : option dict)
    (body : option json) : respects offline (api_request method path params body).
Proof.
  intros w. unfold api_request, bindM, get_api_key.
  destruct (given (api_key w)) eqn:Hkey.
  - split; [reflexivity | intros H; congruence].
  - apply offline_print.
Qed.

(** X1.  Whatever the subcommand, its arguments and the server: the
    environment variables and the server are left as they were, and the
    request log and the standard output only grow. *)
Theorem run_keeps_frame (c : command) (w : world) :
  api_key (run c w).2 = api_key w
  /\ default_board (run c w).2 = default_board w
  /\ server (run c w).2 = server w
  /\ (exists reqs, sent (run c w).2 = sent w ++ reqs)
  /\ (exists docs, stdout (run c w).2 = stdout w ++ docs).
Proof.
  exact (respects_run frame frame_refl frame_trans frame_print frame_request c w).
Qed.

(** X2.  Without an API key (the variable unset or empty) no subcommand
    sends a request. *)
Theorem run_without_key_sends_nothing (c : command) (w : world) :
  given (api_key w) = false -> sent (run c w).2 = sent w.
Proof.
  intros Hkey.
  exact (proj2 (respects_run offline offline_refl offline_trans offline_print
                  offline_request c w) Hkey).
Qed.

Lemma run_without_key_sends_nothing_witness :
  sent (run (SearchCards (label_args "Urgent") 3) (keyless_world no_boards)).2 = []
  /\ sent (run (WipCheck wip_args 3) (keyless_world wip_board)).2 = [].
Proof.
  split.
  - exact (run_without_key_sends_nothing (SearchCards (label_args "Urgent") 3)
             (keyless_world no_boards) eq_refl).
  - exact (run_without_key_sends_nothing (WipCheck wip_args 3)
             (keyless_world wip_board) eq_refl).
Defined.

(** ** One document per run *)

Lemma no_exit_bind {A B} (m : outcome A) (k : A -> outcome B) :
  no_exit m -> (forall a, no_exit (k a)) -> no_exit (obind m k).
Proof. destruct m as [a|e|]; simpl; auto. Qed.

Lemma no_exit_get (x : json) (k : string) (d : json) : no_exit (Py.get x k d).
Proof. destruct x; exact I. Qed.

Lemma no_exit_contains (x : json) (k : string) : no_exit (Py.contains x k).
Proof. destruct x; exact I. Qed.

Lemma no_exit_getitem (x : json) (k : string) : no_exit (Py.getitem x k).
Proof. destruct x; simpl; try exact I. destruct (Py.lookup k d); exact I. Qed.

Lemma no_exit_first (x : json) : no_exit (Py.first x).
Proof. destruct x as [| | |[|]|[|]|]; exact I. Qed.

Lemma no_exit_iter (x : json) : no_exit (Py.iter x).
Proof. destruct x; exact I. Qed.

Lemma no_exit_extend (acc more : json) : no_exit (Py.extend acc more).
Proof. destruct acc; try exact I. destruct more; exact I. Qed.

Lemma no_exit_lower_of (x : json) : no_exit (Py.lower_of x).
Proof. destruct x; exact I. Qed.

Lemma no_exit_int_gt (n : Z) (v : json) : no_exit (Py.int_gt n v).
Proof. destruct v; exact I. Qed.

Lemma no_exit_int_lt (n : Z) (v : json) : no_exit (Py.int_lt n v).
Proof. destruct v; exact I. Qed.

Lemma no_exit_hash (v : json) : no_exit (Py.hash v).
Proof. destruct v; exact I. Qed.

Create HintDb noexit.

#[local] Hint Resolve no_exit_get no_exit_contains no_exit_getitem no_exit_first
  no_exit_iter no_exit_extend no_exit_lower_of no_exit_int_gt no_exit_int_lt
  no_exit_hash : noexit.

Ltac noexit :=
  repeat first
    [ exact I
    | solve [eauto with noexit]
    | apply no_exit_bind; [|intros ?]
    | match goal with
      | |- no_exit (if ?b then _ else _) => destruct b
      | |- no_exit (match ?x with _ => _ end) => destruct x
      end ].

Lemma no_exit_get_card_field (card : json) (field : string) :
  no_exit (get_card_field card field).
Proof. unfold get_card_field. noexit. Qed.

#[local] Hint Resolve no_exit_get_card_field : noexit.

Lemma no_exit_skipped (card : json) (label owner column priority : option string)
    (blocked : bool) (query : option string) :
  no_exit (skipped card label owner column priority blocked query).
Proof.
  unfold skipped, when_given, differs_lower, differs_str, query_misses. noexit.
Qed.

#[local] Hint Resolve no_exit_skipped : noexit.

Lemma no_exit_filter_loop (cards : list json)
    (label owner column priority : option string) (blocked : bool)
    (query : option string) :
  forall result,
    no_exit (filter_loop cards label owner column priority blocked query result).
Proof. induction cards as [|card cards IH]; intros; cbn [filter_loop]; noexit. Qed.

#[local] Hint Resolve no_exit_filter_loop : noexit.

Lemma no_exit_filter_cards (cards : json)
    (label owner column priority : option string) (blocked : bool)
    (query : option string) :
  no_exit (filter_cards cards label owner column priority blocked query).
Proof. unfold filter_cards. noexit. Qed.

Lemma no_exit_count_columns (cards : list json) :
  forall col_counts, no_exit (count_columns cards col_counts).
Proof. induction cards as [|card cards IH]; intros; cbn [count_columns]; noexit. Qed.

Lemma no_exit_column_entry (col_counts : gmap Py.key nat) (col_wrapper : json) :
  no_exit (column_entry col_counts col_wrapper).
Proof. unfold column_entry, violations_of. noexit. Qed.

#[local] Hint Resolve no_exit_column_entry : noexit.

Lemma no_exit_wip_report (columns : list json) (col_counts : gmap Py.key nat) :
  forall report, no_exit (wip_report columns col_counts report).
Proof. induction columns as [|c columns IH]; intros; cbn [wip_report]; noexit. Qed.

Lemma no_exit_is_error (x : json) : no_exit (is_error x).
Proof. unfold is_error. noexit. Qed.

#[local] Hint Resolve no_exit_filter_cards no_exit_count_columns
  no_exit_wip_report no_exit_is_error : noexit.

Lemma quiet_ret {A} (a : A) : quiet (retM a).
Proof. intros w. reflexivity. Qed.

Lemma quiet_lift {A} (o : outcome A) : no_exit o -> quiet (liftM o).
Proof. intros H w. destruct o as [a|[]|]; try reflexivity. destruct H. Qed.

Lemma quiet_error_exit {A} (message : string) : quiet (error_exit (A := A) message).
Proof. intros w. split; [reflexivity | eexists; reflexivity]. Qed.

Lemma quiet_bind {A B} (m : M A) (k : A -> M B) :
  quiet m -> (forall a, quiet (k a)) -> quiet (bindM m k).
Proof.
  intros Hm Hk w. unfold bindM. specialize (Hm w).
  destruct (m w) as [[a|e|] w1]; try exact Hm.
  specialize (Hk a w1). destruct (k a w1) as [[b|[]|] w2];
    rewrite <- Hm; exact Hk.
Qed.

Lemma quiet_api_request (method path : string) (params : option dict)
    (body : option json) : quiet (api_request method path params body).
Proof.
  intros w. unfold api_request, bindM, get_api_key.
  destruct (given (api_key w)); [reflexivity|].
  split; [reflexivity | eexists; reflexivity].
Qed.

Lemma quiet_require_board (board : option string) : quiet (require_board board).
Proof.
  intros w. unfold require_board.
  destruct (given (if given board then board else default_board w));
    [reflexivity|].
  split; [reflexivity | eexists; reflexivity].
Qed.

Create HintDb quiet.

#[local] Hint Resolve quiet_ret quiet_error_exit quiet_api_request
  quiet_require_board : quiet.

Ltac quiet :=
  repeat first
    [ solve [eauto with quiet]
    | apply quiet_lift; solve [noexit]
    | apply quiet_bind; [|intros ?]
    | match goal with
      | |- quiet (if ?b then _ else _) => destruct b
      | |- quiet (match ?x with _ => _ end) => destruct x
      end ].

Lemma quiet_fetch_pages (fuel : nat) :
  forall params cards_data all_cards page,
    quiet (fetch_pages fuel params cards_data all_cards page).
Proof. induction fuel as [|fuel IH]; intros; cbn [fetch_pages]; quiet. Qed.

#[local] Hint Resolve quiet_fetch_pages : quiet.

Lemma quiet_fetch_all_cards (board : json) (include_archived : bool) (fuel : nat) :
  quiet (fetch_all_cards board include_archived fuel).
Proof. unfold fetch_all_cards. quiet. Qed.

#[local] Hint Resolve quiet_fetch_all_cards : quiet.

Lemma quiet_search_boards (a : args) (fuel : nat) (boards : list json) :
  forall all_results, quiet (search_boards a fuel boards all_results).
Proof. induction boards as [|b boards IH]; intros; cbn [search_boards]; quiet. Qed.

Lemma quiet_parse_fields_loop (raw_list : list string) :
  forall fields, quiet (parse_fields_loop raw_list fields).
Proof.
  induction raw_list as [|item rest IH]; intros; cbn [parse_fields_loop]; quiet.
Qed.

#[local] Hint Resolve quiet_search_boards quiet_parse_fields_loop : quiet.

Lemma quiet_set_custom_fields (custom_field : list string) (body : dict) :
  quiet (set_custom_fields custom_field body).
Proof. unfold set_custom_fields, parse_custom_fields. quiet. Qed.

#[local] Hint Resolve quiet_set_custom_fields : quiet.

Lemma one_document_output (data : json) : one_document (output data).
Proof. intros w. eexists. reflexivity. Qed.

Lemma one_document_error_exit (message : string) :
  one_document (error_exit (A := unit) message).
Proof. intros w. split; [reflexivity | eexists; reflexivity]. Qed.

Lemma one_document_bind {A} (m : M A) (k : A -> M unit) :
  quiet m -> (forall a, one_document (k a)) -> one_document (bindM m k).
Proof.
  intros Hm Hk w. unfold bindM. specialize (Hm w).
  destruct (m w) as [[a|e|] w1]; try exact Hm.
  specialize (Hk a w1). destruct (k a w1) as [[b|[]|] w2];
    rewrite <- Hm; exact Hk.
Qed.

Create HintDb onedoc.

#[local] Hint Resolve one_document_output one_document_error_exit : onedoc.

Ltac onedoc :=
  repeat first
    [ solve [eauto with onedoc]
    | apply one_document_bind; [solve [quiet]|intros ?]
    | match goal with
      | |- one_document (if ?b then _ else _) => destruct b
      | |- one_document (match ?x with _ => _ end) => destruct x
      end ].

(** X3.  Output contract: a run of any subcommand that returns, or that
    exits, has printed exactly one document, and an exit has code 1; a run
    that ends in another exception (or goes on for ever) has printed
    nothing. *)
Theorem run_prints_one_document (c : command) (w : world) :
  match run c w with
  | (Ok _, w') => exists doc, stdout w' = stdout w ++ [doc]
  | (Raise (SystemExit code), w') =>
      code = 1%Z /\ exists doc, stdout w' = stdout w ++ [doc]
  | (_, w') => stdout w' = stdout w
  end.
Proof.
  revert w. change (one_document (run c)).
  destruct c; cbn [run];
    unfold cmd_boards, cmd_board, cmd_cards, cmd_card, cmd_create_card,
      cmd_create_cards, cmd_update_card, cmd_move_card, cmd_link_card,
      cmd_unlink_card, cmd_search_cards, search_all, cmd_wip_check;
    onedoc.
Qed.

(** ** Pagination: loops without end and malformed answers *)

Section Unrolling.

Variable w : world.
Variable board : json.
Variable include_archived : bool.
Hypothesis key_set : given (api_key w) = true.

Local Abbreviation resp := (response_at w board include_archived).
Local Abbreviation after := (after_pages w board include_archived).
Local Abbreviation params_of := (params_at board include_archived).

(** [k] turns of the loop over good pages that say [hasMore] *)
Lemma fetch_pages_unroll (recs : nat -> list json) (k : nat) :
  forall (p fuel : nat) (acc : list json),
    1 <= p ->
    (forall q, p <= q <= p + k -> good_page (resp q) (recs q) true) ->
    fetch_pages (k + fuel) (params_of p) (resp p) (JArr acc) (p + 1) (after p)
    = fetch_pages fuel (params_of (p + k)) (resp (p + k))
        (JArr (acc ++ flat_map recs (seq (p + 1) k))) (p + k + 1) (after (p + k)).
Proof.
  induction k as [|k IH]; intros p fuel acc Hp Hgood.
  - cbn [seq flat_map Nat.add]. rewrite app_nil_r, Nat.add_0_r. reflexivity.
  - cbn [Nat.add fetch_pages].
    destruct (Hgood p ltac:(lia)) as (d & Hd & _ & _ & Hmore).
    rewrite Hd. unfold bindM at 1. cbn [liftM Py.get]. rewrite Hmore.
    unfold bindM at 1. rewrite (request_next w board include_archived key_set p Hp).
    destruct (Hgood (p + 1) ltac:(lia)) as (d' & Hd' & Herr & Hcards & _).
    rewrite Hd'. unfold bindM at 1. cbn [liftM Py.get]. rewrite Herr.
    unfold bindM at 1. cbn [liftM]. rewrite Hcards.
    unfold bindM at 1. cbn [liftM Py.extend Py.iter obind].
    rewrite <- Hd', params_at_next by exact Hp.
    rewrite (IH (p + 1) fuel (acc ++ recs (p + 1))); [|lia|].
    + replace (p + 1 + k) with (p + S k) by lia.
      cbn [seq flat_map]. rewrite <- app_assoc.
      replace (S (p + 1)) with (p + 1 + 1) by lia.
      replace (S p) with (p + 1) by lia. reflexivity.
    + intros q Hq. apply Hgood. lia.
Qed.

End Unrolling.

(** X4.  The loop has no bound of its own: against a transport whose
    every page is good and says [hasMore], [fetch_all_cards] never
    returns: whatever the fuel, the run is cut off, after one request per
    unit of fuel and the first one. *)
Theorem fetch_all_cards_endless (w : world) (board : json)
    (include_archived : bool) (recs : nat -> list json) (fuel : nat) :
  given (api_key w) = true ->
  (forall q, 1 <= q ->
             good_page (response_at w board include_archived q) (recs q) true) ->
  fetch_all_cards board include_archived fuel w
  = (NoFuel, after_pages w board include_archived (fuel + 1)).
Proof.
  intros Hkey Hgood. unfold fetch_all_cards.
  unfold bindM at 1. rewrite (request_first w board include_archived Hkey).
  destruct (Hgood 1 ltac:(lia)) as (d & Hd & Herr & Hcards & _).
  rewrite Hd. unfold bindM at 1. cbn [liftM Py.get]. rewrite Herr.
  unfold bindM at 1. cbn [liftM]. rewrite Hcards, <- Hd.
  change (base_params board include_archived)
    with (params_at board include_archived 1).
  change 2 with (1 + 1) at 1.
  replace fuel with (fuel + 0) at 1 by lia.
  rewrite (fetch_pages_unroll w board include_archived Hkey recs fuel 1 0 (recs 1));
    [|lia|intros q Hq; apply Hgood; lia].
  cbn [fetch_pages liftM]. replace (1 + fuel) with (fuel + 1) by lia.
  reflexivity.
Qed.

Lemma fetch_all_cards_endless_witness :
  fetch_all_cards (JStr "b1") false 7 (mock_world endless)
  = (NoFuel, after_pages (mock_world endless) (JStr "b1") false 8).
Proof.
  apply (fetch_all_cards_endless (mock_world endless) (JStr "b1") false
           (fun _ => [JObj [("title", JStr "again")]]) 7 eq_refl).
  intros q Hq. eexists. split; [reflexivity|]. repeat split.
Defined.

(** X5.  The partial result is for error documents only: when pages
    [1..k] are good and say [hasMore] and the answer to the next request is
    no mapping at all (a JSON array, a string, a number, null), the fetch
    ends in [AttributeError] and the records read so far are lost; with
    [k = 0] this is the first request. *)
Theorem fetch_all_cards_malformed_answer (w : world) (board : json)
    (include_archived : bool) (recs : nat -> list json) (k fuel : nat) :
  given (api_key w) = true ->
  k <= fuel ->
  (forall q, 1 <= q <= k ->
             good_page (response_at w board include_archived q) (recs q) true) ->
  Py.is_dict (response_at w board include_archived (k + 1)) = false ->
  fetch_all_cards board include_archived fuel w
  = (Raise AttributeError, after_pages w board include_archived (k + 1)).
Proof.
  intros Hkey Hfuel Hgood Hbad. unfold fetch_all_cards.
  unfold bindM at 1. rewrite (request_first w board include_archived Hkey).
  destruct k as [|k].
  - cbn [Nat.add] in Hbad |- *.
    destruct (response_at w board include_archived 1); try discriminate Hbad;
      reflexivity.
  - destruct (Hgood 1 ltac:(lia)) as (d & Hd & Herr & Hcards & _).
    rewrite Hd. unfold bindM at 1. cbn [liftM Py.get]. rewrite Herr.
    unfold bindM at 1. cbn [liftM]. rewrite Hcards, <- Hd.
    change (base_params board include_archived)
      with (params_at board include_archived 1).
    change 2 with (1 + 1) at 1.
    replace fuel with (k + (fuel - k)) at 1 by lia.
    rewrite (fetch_pages_unroll w board include_archived Hkey recs k 1
               (fuel - k) (recs 1));
      [|lia|intros q Hq; apply Hgood; lia].
    destruct (fuel - k) as [|fuel'] eqn:Hf; [lia|]. cbn [fetch_pages].
    destruct (Hgood (1 + k) ltac:(lia)) as (d' & Hd' & _ & _ & Hmore).
    rewrite Hd'. unfold bindM at 1. cbn [liftM Py.get]. rewrite Hmore.
    unfold bindM at 1.
    rewrite (request_next w board include_archived Hkey (1 + k)) by lia.
    replace (1 + k + 1) with (S k + 1) by lia.
    destruct (response_at w board include_archived (S k + 1));
      try discriminate Hbad; reflexivity.
Qed.

Lemma fetch_all_cards_malformed_answer_witness :
  fetch_all_cards (JStr "b1") false 3 (mock_world array_after_first)
  = (Raise AttributeError,
     after_pages (mock_world array_after_first) (JStr "b1") false 2).
Proof.
  apply (fetch_all_cards_malformed_answer (mock_world array_after_first)
           (JStr "b1") false (fun _ => [JObj [("title", JStr "first")]]) 1 3
           eq_refl); [lia| |reflexivity].
  intros q Hq. assert (q = 1) as -> by lia.
  eexists. split; [reflexivity|]. repeat split.
Defined.

(** ** Custom fields *)

Lemma append_nil_r (s : string) : s +:+ "" = s.
Proof.
  induction s as [|c s IH]; [reflexivity|].
  change (String c (s +:+ "") = String c s). congruence.
Qed.

Lemma rev_app_rev_app (s1 s2 s3 : string) :
  String.rev_app (String.rev_app s1 s2) s3 = String.rev_app s2 (s1 +:+ s3).
Proof.
  revert s2. induction s1 as [|c s1 IH]; intros s2; simpl.
  - reflexivity.
  - rewrite IH. reflexivity.
Qed.

Lemma rev_rev (s : string) : String.rev (String.rev s) = s.
Proof.
  unfold String.rev. rewrite rev_app_rev_app. simpl. apply append_nil_r.
Qed.

Lemma strip_trimmed (s : string) : trimmed s -> Text.strip s = s.
Proof.
  intros [Hl Hr]. unfold Text.strip. rewrite Hl, Hr. apply rev_rev.
Qed.

Lemma prefix_eq_sign (c : ascii) (s : string) :
  String.prefix "=" (String c s) = Ascii.eqb c "=".
Proof.
  change (String.prefix "=" (String c s))
    with (match ascii_dec "=" c with
          | left _ => String.prefix "" s
          | right _ => false
          end).
  destruct (ascii_dec "=" c) as [<-|Hne].
  - destruct s; reflexivity.
  - symmetry. apply Ascii.eqb_neq. intros Heq. apply Hne. symmetry. exact Heq.
Qed.

Lemma substring_of_eq_sign (c : ascii) (s : string) :
  Py.substring_of "=" (String c s) = Ascii.eqb c "=" || Py.substring_of "=" s.
Proof.
  change (Py.substring_of "=" (String c s))
    with (String.prefix "=" (String c s) || Py.substring_of "=" s).
  rewrite prefix_eq_sign. reflexivity.
Qed.

Lemma has_eq_sign (label value : string) :
  Py.substring_of "=" (label +:+ "=" +:+ value) = true.
Proof.
  induction label as [|c label IH].
  - change ("" +:+ "=" +:+ value) with (String "=" value).
    rewrite substring_of_eq_sign. reflexivity.
  - change (String c label +:+ "=" +:+ value)
      with (String c (label +:+ "=" +:+ value)).
    rewrite substring_of_eq_sign, IH. apply orb_true_r.
Qed.

Lemma split_once_eq_sign (label value : string) :
  Py.substring_of "=" label = false ->
  Text.split_once "=" (label +:+ "=" +:+ value) = (label, value).
Proof.
  induction label as [|c label IH]; intros Hno.
  - reflexivity.
  - rewrite substring_of_eq_sign in Hno. apply orb_false_iff in Hno as [Hc Hl].
    change (String c label +:+ "=" +:+ value)
      with (String c (label +:+ "=" +:+ value)).
    cbn [Text.split_once]. rewrite Hc, (IH Hl). reflexivity.
Qed.

Lemma parse_fields_loop_well_formed (pairs : list (string * string)) (w : world) :
  Forall (fun lv => Py.substring_of "=" lv.1 = false) pairs ->
  forall fields,
    parse_fields_loop (field_text_of <$> pairs) fields w
    = (Ok (fields ++ ((fun lv => field_doc (Text.strip lv.1) (Text.strip lv.2))
                        <$> pairs)), w).
Proof.
  induction 1 as [|[label value] pairs Hlabel _ IH]; intros fields.
  - cbn. rewrite app_nil_r. reflexivity.
  - cbn [fmap list_fmap parse_fields_loop].
    change (field_text_of (label, value)) with (label +:+ "=" +:+ value).
    cbn [fst snd] in *. rewrite has_eq_sign. cbn [negb].
    rewrite (split_once_eq_sign _ _ Hlabel), IH, <- app_assoc. reflexivity.
Qed.

Lemma parse_fields_loop_malformed (good : list string) (bad : string)
    (rest : list string) (w : world) :
  Forall (fun item => Py.substring_of "=" item = true) good ->
  Py.substring_of "=" bad = false ->
  forall fields,
    parse_fields_loop (good ++ bad :: rest) fields w
    = (Raise (SystemExit 1), print (error_doc (custom_field_error bad)) w).
Proof.
  intros Hgood Hbad. induction Hgood as [|item good Hitem _ IH]; intros fields.
  - cbn [app parse_fields_loop]. rewrite Hbad. reflexivity.
  - cbn [app parse_fields_loop]. rewrite Hitem. cbn [negb].
    destruct (Text.split_once "=" item). apply IH.
Qed.

(** X6.  Custom fields round-trip: a list of texts ["label=value"], each
    label without ["="], parses to the fields with these labels and values
    in the same order, white space around each part removed (parts without
    white space at their ends come back as they are); the split is at the
    first ["="], so a value may contain ["="]; nothing is printed or sent. *)
Theorem parse_custom_fields_round_trip (pairs : list (string * string))
    (w : world) :
  Forall (fun lv => Py.substring_of "=" lv.1 = false) pairs ->
  parse_custom_fields (field_text_of <$> pairs) w
  = (Ok ((fun lv => field_doc (Text.strip lv.1) (Text.strip lv.2)) <$> pairs), w)
  /\ (Forall (fun lv => trimmed lv.1 /\ trimmed lv.2) pairs ->
      parse_custom_fields (field_text_of <$> pairs) w
      = (Ok ((fun lv => field_doc lv.1 lv.2) <$> pairs), w)).
Proof.
  intros Hlabels.
  pose proof (parse_fields_loop_well_formed pairs w Hlabels []) as Hrun.
  split; [exact Hrun|]. intros Htrim.
  unfold parse_custom_fields. rewrite Hrun. do 2 f_equal. cbn [app].
  clear Hrun Hlabels. induction Htrim as [|[l v] pairs [Hl Hv] _ IH].
  - reflexivity.
  - cbn [fmap list_fmap fst snd] in *.
    rewrite (strip_trimmed _ Hl), (strip_trimmed _ Hv). f_equal. exact IH.
Qed.

Lemma parse_custom_fields_round_trip_witness :
  parse_custom_fields ["Team=Core"; " Sprint = 2024=Q3 "] (mock_world no_boards)
  = (Ok [field_doc "Team" "Core"; field_doc "Sprint" "2024=Q3"],
     mock_world no_boards).
Proof.
  exact (proj1 (parse_custom_fields_round_trip
                  [("Team", "Core"); (" Sprint ", " 2024=Q3 ")]
                  (mock_world no_boards)
                  ltac:(repeat constructor))).
Defined.

(** X7.  The first item without ["="] ends the parse in the usage error
    that quotes this item (exit code 1), whatever follows it; nothing is
    sent. *)
Theorem parse_custom_fields_malformed (good : list string) (bad : string)
    (rest : list string) (w : world) :
  Forall (fun item => Py.substring_of "=" item = true) good ->
  Py.substring_of "=" bad = false ->
  parse_custom_fields (good ++ bad :: rest) w
  = (Raise (SystemExit 1), print (error_doc (custom_field_error bad)) w)
  /\ sent (parse_custom_fields (good ++ bad :: rest) w).2 = sent w.
Proof.
  intros Hgood Hbad.
  pose proof (parse_fields_loop_malformed good bad rest w Hgood Hbad []) as Hrun.
  unfold parse_custom_fields. rewrite Hrun. split; reflexivity.
Qed.

Lemma parse_custom_fields_malformed_witness :
  parse_custom_fields ["Team=Core"; "Sprint 7"; "also bad"] (mock_world no_boards)
  = (Raise (SystemExit 1),
     print (error_doc "Invalid custom field format: 'Sprint 7'. Use 'Label=Value'.")
       (mock_world no_boards)).
Proof.
  exact (proj1 (parse_custom_fields_malformed ["Team=Core"] "Sprint 7" ["also bad"]
                  (mock_world no_boards)
                  ltac:(repeat constructor) eq_refl)).
Defined.

(** ** More on field lookup and filters *)

(** X8.  Field lookup raises on records of other shapes: a card that is no
    mapping (a list, a string, a number, null) never resolves any field, the
    lookup ends in [TypeError] or [AttributeError]; and when the field is
    absent at top level and ["CardItem"] holds something that is no mapping
    ([null] for one), the lookup ends in [AttributeError] where a missing
    ["CardItem"] gives [None]. *)
Theorem get_card_field_other_shapes (f : string) :
  (forall card, Py.is_dict card = false ->
                get_card_field card f = Raise TypeError
                \/ get_card_field card f = Raise AttributeError)
  /\ (forall (card : dict) (wrapper : json),
         Py.lookup f card = None ->
         Py.lookup "CardItem" card = Some wrapper ->
         Py.is_dict wrapper = false ->
         get_card_field (JObj card) f = Raise AttributeError).
Proof.
  split.
  - intros card Hcard. unfold get_card_field.
    destruct card; try discriminate Hcard; cbn; auto.
    + destruct (Py.substring_of f s); auto.
    + destruct (existsb (Py.is_str f) l); auto.
  - intros card wrapper Htop Hwrap Hno.
    rewrite get_card_field_absent by exact Htop. rewrite Hwrap. cbn.
    destruct wrapper; try discriminate Hno; reflexivity.
Qed.

Lemma get_card_field_other_shapes_witness :
  get_card_field (JObj [("title", JStr "A"); ("CardItem", JNull)]) "owner"
  = Raise AttributeError
  /\ get_card_field (JObj [("title", JStr "A")]) "owner" = Ok JNull.
Proof.
  split; [|reflexivity].
  exact (proj2 (get_card_field_other_shapes "owner")
           [("title", JStr "A"); ("CardItem", JNull)] JNull
           eq_refl eq_refl eq_refl).
Defined.

Lemma when_given_absent (o : option string) (test : string -> outcome bool) :
  given o = false -> when_given o test = Ok false.
Proof.
  destruct o as [s|]; simpl; [|reflexivity].
  destruct (String.eqb s ""); [reflexivity | discriminate].
Qed.

Lemma when_given_present (o : option string) (test : string -> outcome bool) :
  given o = true -> when_given o test = test (default "" o).
Proof.
  destruct o as [s|]; simpl; [|discriminate].
  destruct (String.eqb s ""); [discriminate | reflexivity].
Qed.

(** X9.  A filter without predicates reads no field and keeps everything:
    with no label, owner, column, priority and query (absent or empty) and
    without [blocked], [filter_cards] returns the items of its input in
    order, records of any shape included. *)
Theorem filter_cards_no_predicate (cards : json) (items : list json)
    (label owner column priority query : option string) :
  Py.iter cards = Ok items ->
  given label = false -> given owner = false -> given column = false ->
  given priority = false -> given query = false ->
  filter_cards cards label owner column priority false query = Ok items.
Proof.
  intros Hiter Hl Ho Hc Hp Hq. unfold filter_cards. rewrite Hiter. cbn [obind].
  rewrite (filter_loop_keeps _ _ _ _ _ _ (fun _ => true)).
  - rewrite filter_true. reflexivity.
  - apply Forall_forall. intros card _. unfold skipped.
    rewrite !when_given_absent by assumption. reflexivity.
Qed.

Lemma filter_cards_no_predicate_witness :
  filter_cards (JArr [JObj [("title", JStr "A")]; JNum 7; JNull])
    (Some "") None None None false None
  = Ok [JObj [("title", JStr "A")]; JNum 7; JNull].
Proof.
  apply filter_cards_no_predicate; reflexivity.
Defined.

Lemma query_misses_text (card : json) (query : string) :
  has_text card "title" -> has_text card "description" ->
  query_misses card query = Ok (negb (query_hits query card)).
Proof.
  intros (t & tt & Ht & Htt) (d & dt & Hd & Hdt).
  unfold query_misses, query_hits, field_text. rewrite Ht, Hd. cbn [obind].
  rewrite (lower_of_text _ _ Htt), (lower_of_text _ _ Hdt), Htt, Hdt.
  cbn [obind default from_option id]. rewrite negb_orb. reflexivity.
Qed.

(** X10.  The query predicate is a case-insensitive substring search over
    title and description: with a non-empty query and records whose title
    and description resolve to text (or to nothing), [filter_cards] keeps
    exactly the records whose lower-cased title or lower-cased description
    contains the lower-cased query, in their order. *)
Theorem filter_cards_query (R : list json) (query : string) :
  query <> "" ->
  Forall (fun r => has_text r "title" /\ has_text r "description") R ->
  filter_cards (JArr R) None None None None false (Some query)
  = Ok (List.filter (query_hits query) R).
Proof.
  intros Hq Htext. apply String.eqb_neq in Hq.
  unfold filter_cards. cbn [Py.iter obind].
  rewrite (filter_loop_keeps _ _ _ _ _ _ (query_hits query)); [reflexivity|].
  eapply Forall_impl; [exact Htext|]. intros r [Ht Hd].
  unfold skipped. cbn [when_given obind]. rewrite Hq.
  rewrite (query_misses_text _ _ Ht Hd).
  cbn [obind]. destruct (query_hits query r); reflexivity.
Qed.

Lemma filter_cards_query_witness :
  filter_cards
    (JArr [JObj [("title", JStr "Fix LOGIN page")];
           JObj [("title", JStr "Docs"); ("description", JStr "about Login")];
           JObj [("title", JStr "Logo")]])
    None None None None false (Some "login")
  = Ok [JObj [("title", JStr "Fix LOGIN page")];
        JObj [("title", JStr "Docs"); ("description", JStr "about Login")]].
Proof.
  refine (eq_trans (filter_cards_query _ "login" _ _) _).
  - discriminate.
  - repeat constructor; eexists _, _; (split; [vm_compute; reflexivity | reflexivity]).
  - vm_compute. reflexivity.
Defined.

(** X11.  The priority predicate compares texts: with a non-empty
    [priority] and records whose priority resolves, [filter_cards] keeps
    exactly the records [r] with [str(priority of r or "") = priority]; so
    the number 2 and the string "2" both match ["2"], and a priority that is
    a false value (0, null, absent) matches no filter. *)
Theorem filter_cards_priority (R : list json) (priority : string) :
  priority <> "" ->
  Forall (fun r => resolves r "priority") R ->
  filter_cards (JArr R) None None None (Some priority) false None
  = Ok (List.filter (fun r => String.eqb (priority_str r) priority) R)
  /\ forall r v, In r R -> get_card_field r "priority" = Ok v ->
                 Py.truthy v = false ->
                 String.eqb (priority_str r) priority = false.
Proof.
  intros Hp Hres. split.
  - apply String.eqb_neq in Hp.
    unfold filter_cards. cbn [Py.iter obind].
    rewrite (filter_loop_keeps _ _ _ _ _ _
               (fun r => String.eqb (priority_str r) priority)); [reflexivity|].
    eapply Forall_impl; [exact Hres|]. intros r [v Hv].
    unfold skipped. cbn [when_given obind]. rewrite Hp.
    unfold differs_str, priority_str. rewrite Hv. cbn [obind].
    destruct (String.eqb _ priority); reflexivity.
  - intros r v _ Hv Hfalse. unfold priority_str, Py.or_else.
    rewrite Hv, Hfalse. change (Py.str (JStr "")) with "".
    apply String.eqb_neq. congruence.
Qed.

Lemma filter_cards_priority_witness :
  filter_cards
    (JArr [JObj [("priority", JNum 2)]; JObj [("priority", JStr "2")];
           JObj [("priority", JNum 0)]; JObj [("title", JStr "none")];
           JObj [("priority", JNum 3)]])
    None None None (Some "2") false None
  = Ok [JObj [("priority", JNum 2)]; JObj [("priority", JStr "2")]].
Proof.
  refine (eq_trans (proj1 (filter_cards_priority _ "2" _ _)) _).
  - discriminate.
  - repeat constructor; eexists; vm_compute; reflexivity.
  - vm_compute. reflexivity.
Defined.

(** X12.  The blocked predicate keeps the records whose [blocked] field is
    a true value: with [blocked] alone and records whose field resolves,
    [filter_cards] keeps exactly those, a record without the field or with
    [false], [0], [""] or [null] in it being dropped. *)
Theorem filter_cards_blocked (R : list json) :
  Forall (fun r => resolves r "blocked") R ->
  filter_cards (JArr R) None None None None true None
  = Ok (List.filter is_blocked R).
Proof.
  intros Hres. unfold filter_cards. cbn [Py.iter obind].
  rewrite (filter_loop_keeps _ _ _ _ _ _ is_blocked); [reflexivity|].
  eapply Forall_impl; [exact Hres|]. intros r [v Hv].
  unfold skipped, is_blocked. cbn [when_given obind]. rewrite Hv. cbn [obind].
  destruct (Py.truthy v); reflexivity.
Qed.

Lemma filter_cards_blocked_witness :
  filter_cards
    (JArr [JObj [("blocked", JBool true)]; JObj [("blocked", JBool false)];
           JObj [("title", JStr "free")];
           JObj [("CardItem", JObj [("blocked", JStr "by ann")])]])
    None None None None true None
  = Ok [JObj [("blocked", JBool true)];
        JObj [("CardItem", JObj [("blocked", JStr "by ann")])]].
Proof.
  refine (eq_trans (filter_cards_blocked _ _) _).
  - repeat constructor; eexists; vm_compute; reflexivity.
  - vm_compute. reflexivity.
Defined.

Lemma continue_if_false (c k : outcome bool) :
  (continue_if c;; k) = Ok false <-> c = Ok false /\ k = Ok false.
Proof.
  destruct c as [[|]|e|]; simpl; split;
    try discriminate; try (intros [H _]; discriminate H); tauto.
Qed.

Lemma when_given_weaker (o o' : option string) (test : string -> outcome bool) :
  weaker o o' -> when_given o' test = Ok false -> when_given o test = Ok false.
Proof.
  intros [Habsent | ->] H; [apply when_given_absent; exact Habsent | exact H].
Qed.

Lemma kept_weaker (card : json)
    (label owner column priority query : option string) (blocked : bool)
    (label' owner' column' priority' query' : option string) (blocked' : bool) :
  weaker label label' -> weaker owner owner' -> weaker column column' ->
  weaker priority priority' -> weaker query query' ->
  (blocked = true -> blocked' = true) ->
  skipped card label' owner' column' priority' blocked' query' = Ok false ->
  skipped card label owner column priority blocked query = Ok false.
Proof.
  intros Hl Ho Hc Hp Hq Hb H. unfold skipped in *.
  repeat (apply continue_if_false in H; destruct H as [? H]).
  repeat (apply continue_if_false; split);
    try (eapply when_given_weaker; eassumption); try reflexivity.
  destruct blocked; [|reflexivity]. rewrite (Hb eq_refl) in *. assumption.
Qed.

Section Conjunction.

Variables (label owner column priority query : option string) (blocked : bool).
Variables (label' owner' column' priority' query' : option string)
  (blocked' : bool).
Hypothesis weaker_label : weaker label label'.
Hypothesis weaker_owner : weaker owner owner'.
Hypothesis weaker_column : weaker column column'.
Hypothesis weaker_priority : weaker priority priority'.
Hypothesis weaker_query : weaker query query'.
Hypothesis weaker_blocked : blocked = true -> blocked' = true.

Lemma filter_loop_weaker (R : list json) :
  forall acc acc' res res',
    filter_loop R label owner column priority blocked query acc = Ok res ->
    filter_loop R label' owner' column' priority' blocked' query' acc' = Ok res' ->
    sublist acc' acc -> sublist res' res.
Proof.
  induction R as [|card R IH]; intros acc acc' res res' H H' Hsub;
    cbn [filter_loop] in H, H'.
  - injection H as <-. injection H' as <-. exact Hsub.
  - destruct (skipped card label owner column priority blocked query)
      as [s| |] eqn:E; cbn [obind] in H; try discriminate H.
    destruct (skipped card label' owner' column' priority' blocked' query')
      as [s'| |] eqn:E'; cbn [obind] in H'; try discriminate H'.
    apply (IH _ _ _ _ H H'). destruct s'.
    + destruct s; [exact Hsub | apply sublist_inserts_r; exact Hsub].
    + rewrite (kept_weaker card label owner column priority query blocked
                 label' owner' column' priority' query' blocked'
                 weaker_label weaker_owner weaker_column weaker_priority
                 weaker_query weaker_blocked E') in E.
      injection E as <-. apply sublist_app; [exact Hsub | reflexivity].
Qed.

End Conjunction.

(** X13.  Predicates combine by conjunction: when a filter has every
    predicate of another one and possibly more, and both filterings of the
    same records return, the result of the larger filter is a sublist of the
    result of the smaller one, so it is no longer. *)
Theorem filter_cards_conjunction (R R1 R2 : list json)
    (label owner column priority query : option string) (blocked : bool)
    (label' owner' column' priority' query' : option string) (blocked' : bool) :
  weaker label label' -> weaker owner owner' -> weaker column column' ->
  weaker priority priority' -> weaker query query' ->
  (blocked = true -> blocked' = true) ->
  filter_cards (JArr R) label owner column priority blocked query = Ok R1 ->
  filter_cards (JArr R) label' owner' column' priority' blocked' query' = Ok R2 ->
  sublist R2 R1 /\ length R2 <= length R1.
Proof.
  intros Hl Ho Hc Hp Hq Hb H1 H2. unfold filter_cards in H1, H2.
  cbn [Py.iter obind] in H1, H2.
  assert (Hsub : sublist R2 R1).
  { eapply (filter_loop_weaker label owner column priority query blocked
              label' owner' column' priority' query' blocked'
              Hl Ho Hc Hp Hq Hb R [] [] R1 R2 H1 H2). reflexivity. }
  split; [exact Hsub | apply sublist_length; exact Hsub].
Qed.

Lemma filter_cards_conjunction_witness :
  let R := [JObj [("label", JStr "bug"); ("owner", JStr "ann@x.io")];
            JObj [("label", JStr "Bug"); ("owner", JStr "bob@x.io")];
            JObj [("label", JStr "idea"); ("owner", JStr "ann@x.io")]] in
  let R1 := [JObj [("label", JStr "bug"); ("owner", JStr "ann@x.io")];
             JObj [("label", JStr "Bug"); ("owner", JStr "bob@x.io")]] in
  let R2 := [JObj [("label", JStr "bug"); ("owner", JStr "ann@x.io")]] in
  filter_cards (JArr R) (Some "bug") None None None false None = Ok R1
  /\ filter_cards (JArr R) (Some "bug") (Some "ANN@x.io") None None false None
     = Ok R2
  /\ sublist R2 R1 /\ length R2 <= length R1.
Proof.
  intros R R1 R2.
  assert (H1 : filter_cards (JArr R) (Some "bug") None None None false None
               = Ok R1) by (vm_compute; reflexivity).
  assert (H2 : filter_cards (JArr R) (Some "bug") (Some "ANN@x.io") None None
                 false None = Ok R2) by (vm_compute; reflexivity).
  split; [exact H1|]. split; [exact H2|].
  apply (filter_cards_conjunction R R1 R2
           (Some "bug") None None None None false
           (Some "bug") (Some "ANN@x.io") None None None false);
    try (right; reflexivity); try (left; reflexivity); try (intros H; exact H);
    assumption.
Defined.

(** ** The board of a subcommand *)

Lemma blind_ret {A} (a : A) : board_blind (retM a).
Proof. intros w w' H. split; [reflexivity | exact H]. Qed.

Lemma blind_lift {A} (o : outcome A) : board_blind (liftM o).
Proof. intros w w' H. split; [reflexivity | exact H]. Qed.

Lemma same_but_board_print (doc : json) (w w' : world) :
  same_but_board w w' -> same_but_board (print doc w) (print doc w').
Proof.
  intros (Hk & Hs & Hr & Ho). repeat split; simpl; congruence.
Qed.

Lemma blind_output (data : json) : board_blind (output data).
Proof.
  intros w w' H. split; [reflexivity | apply same_but_board_print; exact H].
Qed.

Lemma blind_error_exit {A} (message : string) :
  board_blind (error_exit (A := A) message).
Proof.
  intros w w' H. split; [reflexivity | apply same_but_board_print; exact H].
Qed.

Lemma blind_bind {A B} (m : M A) (k : A -> M B) :
  board_blind m -> (forall a, board_blind (k a)) -> board_blind (bindM m k).
Proof.
  intros Hm Hk w w' H. unfold bindM. destruct (Hm w w' H) as [Ho Hw].
  destruct (m w) as [o w1], (m w') as [o' w1']. simpl in Ho, Hw. subst o'.
  destruct o as [a|e|]; [apply Hk; exact Hw | split; [reflexivity | exact Hw]..].
Qed.

Lemma blind_api_request (method path : string) (params : option dict)
    (body : option json) : board_blind (api_request method path params body).
Proof.
  intros w w' (Hk & Hs & Hr & Ho). unfold api_request, bindM, get_api_key.
  rewrite Hk. destruct (given (api_key w)).
  - unfold urlopen. cbn [fst snd]. rewrite Hs, Hr. split; [reflexivity|].
    repeat split; simpl; congruence.
  - split; [reflexivity|]. unfold error_exit. cbn [snd].
    apply same_but_board_print. repeat split; assumption.
Qed.

Lemma blind_require_board (board : option string) :
  given board = true -> board_blind (require_board board).
Proof.
  intros Hb w w' H. unfold require_board. rewrite Hb. cbn zeta. rewrite Hb.
  split; [reflexivity | exact H].
Qed.

Create HintDb blind.

#[local] Hint Resolve blind_ret blind_lift blind_output blind_error_exit
  blind_api_request blind_require_board : blind.

Ltac blind :=
  repeat first
    [ solve [eauto with blind]
    | apply blind_bind; [|intros ?]
    | match goal with
      | |- board_blind (if ?b then _ else _) => destruct b
      | |- board_blind (match ?x with _ => _ end) => destruct x
      end ].

Lemma blind_fetch_pages (fuel : nat) :
  forall params cards_data all_cards page,
    board_blind (fetch_pages fuel params cards_data all_cards page).
Proof. induction fuel as [|fuel IH]; intros; cbn [fetch_pages]; blind. Qed.

#[local] Hint Resolve blind_fetch_pages : blind.

Lemma blind_fetch_all_cards (board : json) (include_archived : bool) (fuel : nat) :
  board_blind (fetch_all_cards board include_archived fuel).
Proof. unfold fetch_all_cards. blind. Qed.

Lemma blind_parse_fields_loop (raw_list : list string) :
  forall fields, board_blind (parse_fields_loop raw_list fields).
Proof.
  induction raw_list as [|item rest IH]; intros; cbn [parse_fields_loop]; blind.
Qed.

#[local] Hint Resolve blind_fetch_all_cards blind_parse_fields_loop : blind.

Lemma blind_set_custom_fields (custom_field : list string) (body : dict) :
  board_blind (set_custom_fields custom_field body).
Proof. unfold set_custom_fields, parse_custom_fields. blind. Qed.

#[local] Hint Resolve blind_set_custom_fields : blind.

Lemma blind_run (c : command) (board : option string) :
  board_argument c = Some board -> given board = true -> board_blind (run c).
Proof.
  intros Hc Hb.
  destruct c; cbn [board_argument] in Hc; try discriminate Hc;
    injection Hc as Hc; cbn [run];
    unfold cmd_board, cmd_cards, cmd_card, cmd_create_card, cmd_wip_check;
    rewrite Hc; blind.
Qed.

(** X14.  A subcommand that needs a board takes [--board] when it is given
    and not empty, and then never reads [KANBANZONE_BOARD_ID]: outcome,
    requests and output are the same whatever the variable holds.  With
    neither of them (absent or empty) it ends at once in the usage error
    with exit code 1, before the API key is looked at and without a
    request. *)
Theorem board_override (c : command) (board : option string) (w : world) :
  board_argument c = Some board ->
  (given board = true ->
   forall other,
     (run c (with_default_board w other)).1 = (run c w).1
     /\ sent (run c (with_default_board w other)).2 = sent (run c w).2
     /\ stdout (run c (with_default_board w other)).2 = stdout (run c w).2)
  /\ (given board = false -> given (default_board w) = false ->
      run c w = (Raise (SystemExit 1), print (error_doc board_usage) w)).
Proof.
  intros Hc. split.
  - intros Hb other.
    destruct (blind_run c board Hc Hb w (with_default_board w other))
      as (Ho & _ & _ & Hr & Hp).
    + repeat split.
    + auto.
  - intros Hb Hd.
    destruct c; cbn [board_argument] in Hc; try discriminate Hc;
      injection Hc as Hc; cbn [run];
      unfold cmd_board, cmd_cards, cmd_card, cmd_create_card, cmd_wip_check;
      rewrite Hc; unfold bindM at 1, require_board; rewrite Hb, Hd;
      reflexivity.
Qed.

Lemma board_override_witness :
  (stdout (run (WipCheck wip_args 1)
             (with_default_board (mock_world wip_board) (Some "other"))).2
   = stdout (run (WipCheck wip_args 1) (mock_world wip_board)).2)
  /\ run (Card (Some "") "12") (mock_world no_boards)
     = (Raise (SystemExit 1), print (error_doc board_usage) (mock_world no_boards)).
Proof.
  split.
  - exact (proj2 (proj2 (proj1 (board_override (WipCheck wip_args 1) (Some "b1")
                                  (mock_world wip_board) eq_refl)
                           eq_refl (Some "other")))).
  - exact (proj2 (board_override (Card (Some "") "12") (Some "")
                    (mock_world no_boards) eq_refl) eq_refl eq_refl).
Defined.

(** ** Subcommands that relay one request *)

Lemma silent_ret {A} (a : A) : silent (retM a).
Proof. intros w. reflexivity. Qed.

Lemma silent_lift {A} (o : outcome A) : silent (liftM o).
Proof. intros w. destruct o; reflexivity. Qed.

Lemma silent_error_exit {A} (message : string) :
  silent (error_exit (A := A) message).
Proof. intros w. reflexivity. Qed.

Lemma silent_require_board (board : option string) : silent (require_board board).
Proof.
  intros w. unfold require_board.
  destruct (given (if given board then board else default_board w)); reflexivity.
Qed.

Lemma silent_bind {A B} (m : M A) (k : A -> M B) :
  silent m -> (forall a, silent (k a)) -> silent (bindM m k).
Proof.
  intros Hm Hk w. unfold bindM. specialize (Hm w).
  destruct (m w) as [[a|e|] w1]; try exact Hm. subst w1. apply Hk.
Qed.

Create HintDb silent.

#[local] Hint Resolve silent_ret silent_lift silent_error_exit
  silent_require_board : silent.

Ltac silent :=
  repeat first
    [ solve [eauto with silent]
    | apply silent_bind; [|intros ?]
    | match goal with
      | |- silent (if ?b then _ else _) => destruct b
      | |- silent (match ?x with _ => _ end) => destruct x
      end ].

Lemma silent_parse_fields_loop (raw_list : list string) :
  forall fields, silent (parse_fields_loop raw_list fields).
Proof.
  induction raw_list as [|item rest IH]; intros; cbn [parse_fields_loop]; silent.
Qed.

#[local] Hint Resolve silent_parse_fields_loop : silent.

Lemma silent_set_custom_fields (custom_field : list string) (body : dict) :
  silent (set_custom_fields custom_field body).
Proof. unfold set_custom_fields, parse_custom_fields. silent. Qed.

#[local] Hint Resolve silent_set_custom_fields : silent.

Lemma relay_request (method path : string) (params : option dict)
    (body : option json) :
  relay (data <~ api_request method path params body;; output data).
Proof.
  intros w Hkey. unfold bindM, api_request, bindM, get_api_key. rewrite Hkey.
  cbn. eexists. split; reflexivity.
Qed.

Lemma relay_error_exit (message : string) : relay (error_exit message).
Proof. intros w _. reflexivity. Qed.

Lemma relay_bind {A} (m : M A) (k : A -> M unit) :
  silent m -> (forall a, relay (k a)) -> relay (bindM m k).
Proof.
  intros Hm Hk w Hkey. unfold bindM. specialize (Hm w).
  destruct (m w) as [[a|e|] w1]; try exact Hm. subst w1. apply Hk. exact Hkey.
Qed.

Create HintDb relay.

#[local] Hint Resolve relay_request relay_error_exit : relay.

Ltac relay :=
  repeat first
    [ solve [eauto with relay]
    | apply relay_bind; [solve [silent]|intros ?]
    | match goal with
      | |- relay (if ?b then _ else _) => destruct b
      | |- relay (match ?x with _ => _ end) => destruct x
      end ].



(** ** Listing with filters *)

(** X16.  A listing with filters pays no attention to [--page], [--count]
    and [--days-since-update]: the run is the same with any other values;
    and when it returns it has printed either the error document of the
    fetch or a summary in which [count] and [totalAvailable] are both the
    number of cards kept by the filter and [hasMore] is false. *)
Theorem cmd_cards_filtered (a : cards_args) (fuel : nat) (w : world) :
  has_filters a = true ->
  (forall page count days,
      cmd_cards (with_paging a page count days) fuel w = cmd_cards a fuel w)
  /\ (forall w',
         cmd_cards a fuel w = (Ok (), w') ->
         exists board all_cards w1,
           require_board (cards_board a) w = (Ok board, w)
           /\ fetch_all_cards (JStr board) (cards_include_archived a) fuel w
              = (Ok all_cards, w1)
           /\ ((is_error all_cards = Ok true /\ w' = print all_cards w1)
               \/ exists filtered,
                   is_error all_cards = Ok false
                   /\ filter_cards all_cards (cards_label a) (cards_owner a)
                        (cards_column a) (cards_priority a) (cards_blocked a)
                        (cards_query a) = Ok filtered
                   /\ w' = print (cards_summary filtered) w1)).
Proof.
  intros Hf. split.
  - intros page count days. unfold cmd_cards.
    change (has_filters (with_paging a page count days)) with (has_filters a).
    rewrite Hf. reflexivity.
  - intros w' Hrun. unfold cmd_cards in Hrun. rewrite Hf in Hrun.
    unfold bindM at 1 in Hrun.
    pose proof (silent_require_board (cards_board a) w) as Hsilent.
    destruct (require_board (cards_board a) w) as [[board| |] w0];
      try discriminate Hrun.
    subst w0. exists board. unfold bindM at 1 in Hrun.
    destruct (fetch_all_cards (JStr board) (cards_include_archived a) fuel w)
      as [[all_cards| |] w1]; try discriminate Hrun.
    exists all_cards, w1. split; [reflexivity|]. split; [reflexivity|].
    unfold bindM at 1 in Hrun. cbn [liftM] in Hrun.
    destruct (is_error all_cards) as [[|]| |]; try discriminate Hrun.
    + left. injection Hrun as <-. split; reflexivity.
    + right. unfold bindM at 1 in Hrun. cbn [liftM] in Hrun.
      destruct (filter_cards all_cards _ _ _ _ _ _) as [filtered| |];
        try discriminate Hrun.
      exists filtered. injection Hrun as <-. repeat split.
Qed.

Lemma cmd_cards_filtered_witness :
  cmd_cards (urgent_cards 5) 3 (mock_world (paged mock_pages))
  = cmd_cards (urgent_cards 1) 3 (mock_world (paged mock_pages))
  /\ stdout (cmd_cards (urgent_cards 1) 3 (mock_world (paged mock_pages))).2
     = [cards_summary []].
Proof.
  split.
  - exact (proj1 (cmd_cards_filtered (urgent_cards 1) 3
                    (mock_world (paged mock_pages)) eq_refl) 5%Z 100%Z None).
  - vm_compute. reflexivity.
Defined.

(** ** Updates and links *)

Lemma request_and_output (method path : string) (body : json) (w : world) :
  given (api_key w) = true ->
  (data <~ api_request method path None (Some body);; output data) w
  = sent_and_printed w
      {| method := method; path := path; params := []; body := Some body |}.
Proof.
  intros Hkey. unfold bindM, api_request, bindM, get_api_key. rewrite Hkey.
  reflexivity.
Qed.

(** X17.  An update needs a field that counts: when every string flag is
    absent or empty and there is no [--blocked], watcher or custom field,
    [cmd_update_card] ends in the usage error (exit code 1) and sends
    nothing, with or without API key.  [--blocked] counts whatever its
    value, the empty string included, and sends [blocked: true] exactly
    when the value is ["true"] in any letter case, [blocked: false] for
    every other text. *)
Theorem cmd_update_card_fields (w : world) :
  (forall a, no_update_fields a = true ->
             cmd_update_card a w
             = (Raise (SystemExit 1), print (error_doc no_fields_usage) w))
  /\ (forall id value,
         given (api_key w) = true ->
         cmd_update_card (blocked_only id value) w
         = sent_and_printed w
             (put_card id
                (JObj [("blocked",
                        JBool (String.eqb (Py.lower value) "true"))]))).
Proof.
  split.
  - intros a H. unfold no_update_fields in H.
    repeat (apply andb_true_iff in H; destruct H as [H ?]).
    repeat match goal with
           | H : negb _ = true |- _ => apply negb_true_iff in H
           | H : bool_decide _ = true |- _ => apply bool_decide_eq_true in H
           end.
    unfold cmd_update_card, set_given.
    repeat match goal with
           | H : given _ = false |- _ => rewrite H; clear H
           | H : _ = None |- _ => rewrite H; clear H
           | H : _ = [] |- _ => rewrite H; clear H
           end.
    reflexivity.
  - intros id value Hkey. unfold cmd_update_card. cbn.
    unfold bindM at 1. cbn.
    apply (request_and_output "PUT" (card_path id) _ w Hkey).
Qed.

Lemma cmd_update_card_fields_witness :
  cmd_update_card (blocked_only 12 "yes") (mock_world no_boards)
  = sent_and_printed (mock_world no_boards)
      (put_card 12 (JObj [("blocked", JBool false)])).
Proof.
  exact (proj2 (cmd_update_card_fields (mock_world no_boards)) 12%Z "yes" eq_refl).
Defined.

(** X18.  The target of a link: a card number other than 0 makes a card
    link of type [--type], or ["related"] when that is absent or empty, and
    then [--url] and [--title] are not sent; otherwise a non-empty [--url]
    makes a URL link of type [--type] or ["external"], with the title when
    one is given; otherwise (no card or card 0, and no URL or an empty one)
    the command ends in the usage error and sends nothing. *)
Theorem cmd_link_card_target (a : link_args) (w : world) :
  (given (api_key w) = true -> given_int (link_card a) = true ->
   cmd_link_card a w
   = sent_and_printed w
       (put_card (link_id a)
          (link_body "add"
             [("card", JNum (default 0%Z (link_card a)));
              ("type", type_or (link_type a) "related")]
             (link_mirror_board a))))
  /\ (given (api_key w) = true -> given_int (link_card a) = false ->
      given (link_url a) = true ->
      cmd_link_card a w
      = sent_and_printed w
          (put_card (link_id a)
             (link_body "add"
                (set_given "title" (link_title a)
                   [("url", JStr (default "" (link_url a)));
                    ("type", type_or (link_type a) "external")])
                (link_mirror_board a))))
  /\ (given_int (link_card a) = false -> given (link_url a) = false ->
      cmd_link_card a w
      = (Raise (SystemExit 1),
         print (error_doc "Provide either --card or --url to link.") w)).
Proof.
  split; [|split].
  - intros Hkey Hcard. unfold cmd_link_card. rewrite Hcard.
    unfold bindM at 1. cbn [retM].
    apply (request_and_output "PUT" (card_path (link_id a)) _ w Hkey).
  - intros Hkey Hcard Hurl. unfold cmd_link_card. rewrite Hcard, Hurl.
    unfold bindM at 1. cbn [retM].
    change (set_given "url" (link_url a) [])
      with (if given (link_url a)
            then Py.set "url" (JStr (default "" (link_url a))) [] else []).
    rewrite Hurl.
    apply (request_and_output "PUT" (card_path (link_id a)) _ w Hkey).
  - intros Hcard Hurl. unfold cmd_link_card. rewrite Hcard, Hurl. reflexivity.
Qed.

(** Card 12 is linked as ["related"]; card 0 is no card. *)
Lemma cmd_link_card_target_witness :
  cmd_link_card (link_to_card 12) (mock_world no_boards)
  = sent_and_printed (mock_world no_boards)
      (put_card 7
         (JObj [("links",
                 JObj [("add", JArr [JObj [("card", JNum 12);
                                           ("type", JStr "related")]])])]))
  /\ cmd_link_card (link_to_card 0) (mock_world no_boards)
     = (Raise (SystemExit 1),
        print (error_doc "Provide either --card or --url to link.")
          (mock_world no_boards)).
Proof.
  split.
  - exact (proj1 (cmd_link_card_target (link_to_card 12) (mock_world no_boards))
             eq_refl eq_refl).
  - exact (proj2 (proj2 (cmd_link_card_target (link_to_card 0)
                           (mock_world no_boards))) eq_refl eq_refl).
Defined.

(** X19.  The target of an unlink is chosen the same way, and the link to
    remove carries the card number or the URL alone: a card number other
    than 0, else a non-empty URL, else the usage error with nothing sent. *)
Theorem cmd_unlink_card_target (a : link_args) (w : world) :
  (given (api_key w) = true -> given_int (link_card a) = true ->
   cmd_unlink_card a w
   = sent_and_printed w
       (put_card (link_id a)
          (link_body "remove" [("card", JNum (default 0%Z (link_card a)))]
             (link_mirror_board a))))
  /\ (given (api_key w) = true -> given_int (link_card a) = false ->
      given (link_url a) = true ->
      cmd_unlink_card a w
      = sent_and_printed w
          (put_card (link_id a)
             (link_body "remove" [("url", JStr (default "" (link_url a)))]
                (link_mirror_board a))))
  /\ (given_int (link_card a) = false -> given (link_url a) = false ->
      cmd_unlink_card a w
      = (Raise (SystemExit 1),
         print (error_doc "Provide either --card or --url to unlink.") w)).
Proof.
  split; [|split].
  - intros Hkey Hcard. unfold cmd_unlink_card. rewrite Hcard.
    unfold bindM at 1. cbn [retM].
    apply (request_and_output "PUT" (card_path (link_id a)) _ w Hkey).
  - intros Hkey Hcard Hurl. unfold cmd_unlink_card. rewrite Hcard, Hurl.
    unfold bindM at 1. cbn [retM].
    change (set_given "url" (link_url a) [])
      with (if given (link_url a)
            then Py.set "url" (JStr (default "" (link_url a))) [] else []).
    rewrite Hurl.
    apply (request_and_output "PUT" (card_path (link_id a)) _ w Hkey).
  - intros Hcard Hurl. unfold cmd_unlink_card. rewrite Hcard, Hurl. reflexivity.
Qed.

Lemma cmd_unlink_card_target_witness :
  cmd_unlink_card (link_to_card 12) (mock_world no_boards)
  = sent_and_printed (mock_world no_boards)
      (put_card 7
         (JObj [("links", JObj [("remove", JArr [JObj [("card", JNum 12)]])])]))
  /\ cmd_unlink_card (link_to_card 0) (mock_world no_boards)
     = (Raise (SystemExit 1),
        print (error_doc "Provide either --card or --url to unlink.")
          (mock_world no_boards)).
Proof.
  split.
  - exact (proj1 (cmd_unlink_card_target (link_to_card 12) (mock_world no_boards))
             eq_refl eq_refl).
  - exact (proj2 (proj2 (cmd_unlink_card_target (link_to_card 0)
                           (mock_world no_boards))) eq_refl eq_refl).
Defined.

(** ** Creating cards *)

Lemma lookup_set_given (k k' : string) (o : option string) (d : dict) :
  Py.lookup k' (set_given k o d)
  = if String.eqb k k' && given o then Some (JStr (default "" o))
    else Py.lookup k' d.
Proof.
  unfold set_given. destruct (given o).
  - rewrite lookup_set, andb_true_r. reflexivity.
  - rewrite andb_false_r. reflexivity.
Qed.

Lemma lookup_set_watchers (k' : string) (watcher : list string) (d : dict) :
  k' <> "watchers" -> Py.lookup k' (set_watchers watcher d) = Py.lookup k' d.
Proof.
  intros Hne. destruct watcher; [reflexivity|].
  cbn [set_watchers]. apply lookup_set_ne. congruence.
Qed.

Lemma parse_fields_loop_returns (items : list string) (w : world) :
  Forall (fun item => Py.substring_of "=" item = true) items ->
  forall fields, exists parsed,
    parse_fields_loop items fields w = (Ok parsed, w).
Proof.
  induction 1 as [|item items Hitem _ IH]; intros fields;
    cbn [parse_fields_loop].
  - eexists. reflexivity.
  - rewrite Hitem. cbn [negb]. destruct (Text.split_once "=" item). apply IH.
Qed.

Lemma set_custom_fields_returns (items : list string) (body : dict) (w : world) :
  Forall (fun item => Py.substring_of "=" item = true) items ->
  exists body',
    set_custom_fields items body w = (Ok body', w)
    /\ forall k', k' <> "customFields" -> Py.lookup k' body' = Py.lookup k' body.
Proof.
  intros Hitems. unfold set_custom_fields. destruct items as [|item items].
  - exists body. split; [reflexivity | auto].
  - destruct (parse_fields_loop_returns _ w Hitems []) as [parsed Hparsed].
    unfold parse_custom_fields, bindM. rewrite Hparsed.
    eexists. split; [reflexivity|].
    intros k' Hne. apply lookup_set_ne. congruence.
Qed.

(** X20.  What [create-card] sends: with an API key, a board and custom
    fields that all hold ["="], the command posts one body to [/card] and
    prints the answer; the body always carries the board and the title
    (also an empty title), carries each optional text argument exactly when
    it is given and not empty, and carries [addToTop] exactly when the flag
    is set. *)
Theorem cmd_create_card_body (a : create_args) (w : world) (board : string) :
  given (api_key w) = true ->
  require_board (create_board a) w = (Ok board, w) ->
  Forall (fun item => Py.substring_of "=" item = true) (create_custom_field a) ->
  exists body,
    cmd_create_card a w = sent_and_printed w (post "/card" (JObj body))
    /\ Py.lookup "board" body = Some (JStr board)
    /\ Py.lookup "title" body = Some (JStr (create_title a))
    /\ Py.lookup "columnId" body = optional (create_column_id a)
    /\ Py.lookup "description" body = optional (create_description a)
    /\ Py.lookup "owner" body = optional (create_owner a)
    /\ Py.lookup "priority" body = optional (create_priority a)
    /\ Py.lookup "label" body = optional (create_label a)
    /\ Py.lookup "size" body = optional (create_size a)
    /\ Py.lookup "dueAt" body = optional (create_due a)
    /\ Py.lookup "templateId" body = optional (create_template_id a)
    /\ Py.lookup "addToTop" body
       = (if create_add_to_top a then Some (JBool true) else None).
Proof.
  intros Hkey Hboard Hfields. unfold cmd_create_card.
  unfold bindM at 1. rewrite Hboard.
  match goal with
  | |- context [set_custom_fields _ ?b] => set (body0 := b)
  end.
  destruct (set_custom_fields_returns (create_custom_field a) body0 w Hfields)
    as (body & Hset & Hsame).
  unfold bindM at 1. rewrite Hset. exists body.
  split; [apply (request_and_output "POST" "/card" _ w Hkey)|].
  repeat split; rewrite Hsame by discriminate; subst body0;
    rewrite lookup_set_watchers by discriminate;
    unfold optional;
    destruct (create_add_to_top a);
    rewrite ?lookup_set, ?lookup_set_given; cbn;
    rewrite ?lookup_set, ?lookup_set_given; cbn;
    repeat match goal with
           | |- context [given ?o] => destruct (given o)
           end; reflexivity.
Qed.

Lemma cmd_create_card_body_witness :
  exists body,
    cmd_create_card create_plain (mock_world no_boards)
    = sent_and_printed (mock_world no_boards) (post "/card" (JObj body))
    /\ Py.lookup "columnId" body = Some (JStr "c1")
    /\ Py.lookup "owner" body = None.
Proof.
  destruct (cmd_create_card_body create_plain (mock_world no_boards) "b1"
              eq_refl eq_refl ltac:(repeat constructor))
    as (body & Hrun & _ & _ & Hcol & _ & Howner & _).
  exists body. split; [exact Hrun|]. split; [exact Hcol | exact Howner].
Defined.

Lemma set_absent (k : string) (v : json) (d : dict) :
  Py.lookup k d = None -> Py.set k v d = d ++ [(k, v)].
Proof.
  induction d as [|[k0 v0] d IH]; simpl; [reflexivity|].
  destruct (String.eqb k0 k); [discriminate|].
  intros H. rewrite (IH H). reflexivity.
Qed.

(** X21.  The board of a bulk creation: when the document read from the
    file is a mapping with a ["board"] key, it is posted to [/cards] as it
    is, and [--board] and [KANBANZONE_BOARD_ID] are not needed and not
    used; when the mapping has no such key, the required board is added as
    its last key; and without a board anywhere the command ends in the
    usage error and sends nothing. *)
Theorem cmd_create_cards_board (d : dict) (board : option string) (w : world) :
  (forall v, given (api_key w) = true ->
             Py.lookup "board" d = Some v ->
             cmd_create_cards (JObj d) board w
             = sent_and_printed w (post "/cards" (JObj d)))
  /\ (forall b, given (api_key w) = true ->
                Py.lookup "board" d = None ->
                require_board board w = (Ok b, w) ->
                cmd_create_cards (JObj d) board w
                = sent_and_printed w
                    (post "/cards" (JObj (d ++ [("board", JStr b)]))))
  /\ (Py.lookup "board" d = None ->
      given board = false -> given (default_board w) = false ->
      cmd_create_cards (JObj d) board w
      = (Raise (SystemExit 1), print (error_doc board_usage) w)).
Proof.
  split; [|split].
  - intros v Hkey Hv. unfold cmd_create_cards.
    unfold bindM at 1. cbn [liftM Py.contains]. rewrite Hv.
    rewrite bool_decide_true by eauto.
    unfold bindM at 1. cbn [retM].
    apply (request_and_output "POST" "/cards" _ w Hkey).
  - intros b Hkey Hno Hb. unfold cmd_create_cards.
    unfold bindM at 1. cbn [liftM Py.contains]. rewrite Hno.
    rewrite bool_decide_false by (intros [? ?]; discriminate).
    unfold bindM at 1. unfold bindM at 1. rewrite Hb. cbn [retM].
    rewrite (set_absent _ _ _ Hno).
    apply (request_and_output "POST" "/cards" _ w Hkey).
  - intros Hno Hb Hd. unfold cmd_create_cards.
    unfold bindM at 1. cbn [liftM Py.contains]. rewrite Hno.
    rewrite bool_decide_false by (intros [? ?]; discriminate).
    unfold bindM at 1. unfold bindM at 1. unfold require_board.
    rewrite Hb, Hd. reflexivity.
Qed.

Lemma cmd_create_cards_board_witness :
  cmd_create_cards (JObj [("board", JStr "file"); ("cards", JArr [])])
    (Some "flag") (mock_world no_boards)
  = sent_and_printed (mock_world no_boards)
      (post "/cards" (JObj [("board", JStr "file"); ("cards", JArr [])]))
  /\ cmd_create_cards (JObj [("cards", JArr [])]) (Some "flag")
       (mock_world no_boards)
     = sent_and_printed (mock_world no_boards)
         (post "/cards" (JObj [("cards", JArr []); ("board", JStr "flag")])).
Proof.
  split.
  - exact (proj1 (cmd_create_cards_board
                    [("board", JStr "file"); ("cards", JArr [])] (Some "flag")
                    (mock_world no_boards))
             (JStr "file") eq_refl eq_refl).
  - exact (proj1 (proj2 (cmd_create_cards_board [("cards", JArr [])] (Some "flag")
                           (mock_world no_boards)))
             "flag" eq_refl eq_refl eq_refl).
Defined.

(** ** Boards that the search passes over *)

Lemma search_boards_archived (a : args) (fuel : nat) (b : json)
    (rest all_results : list json) (w : world) :
  archived_board b ->
  search_boards a fuel (b :: rest) all_results w
  = search_boards a fuel rest all_results w.
Proof.
  intros (bi & Hbi & Harch). cbn [search_boards].
  unfold bindM at 1. cbn [liftM]. rewrite Hbi.
  unfold bindM at 1. cbn [liftM Py.get].
  unfold bindM at 1. cbn [liftM]. rewrite Harch. reflexivity.
Qed.

Lemma search_boards_all_archived (a : args) (fuel : nat) (boards : list json)
    (all_results : list json) (w : world) :
  Forall archived_board boards ->
  search_boards a fuel boards all_results w = (Ok all_results, w).
Proof.
  induction 1 as [|b boards Hb _ IH]; [reflexivity|].
  rewrite search_boards_archived by exact Hb. exact IH.
Qed.

(** X22.  The search passes over archived boards without a request, and
    over a board whose fetch returns an error document without a trace in
    the results, and goes on with the boards that follow; when every board
    of the listing is archived the whole search is the one request for the
    boards and prints a count of 0. *)
Theorem search_passes_over (a : args) (fuel : nat) (w : world) :
  (forall b rest all_results,
      archived_board b ->
      search_boards a fuel (b :: rest) all_results w
      = search_boards a fuel rest all_results w)
  /\ (forall b bi rest all_results doc w1,
         Py.get b "BoardItem" b = Ok (JObj bi) ->
         Py.truthy (default JNull (Py.lookup "isArchived" bi)) = false ->
         fetch_all_cards (default JNull (Py.lookup "publicId" bi))
           (arg_include_archived a) fuel w = (Ok doc, w1) ->
         is_error doc = Ok true ->
         search_boards a fuel (b :: rest) all_results w
         = search_boards a fuel rest all_results w1)
  /\ (forall d boards,
         narrowing a = true ->
         given (api_key w) = true ->
         server w (sent w) boards_request = JObj d ->
         Py.truthy (default JNull (Py.lookup "error" d)) = false ->
         default (JArr []) (Py.lookup "boards" d) = JArr boards ->
         Forall archived_board boards ->
         cmd_search_cards a fuel w
         = (Ok (), print no_results (with_sent w [boards_request]))).
Proof.
  split; [|split].
  - intros. apply search_boards_archived. assumption.
  - intros b bi rest all_results doc w1 Hbi Harch Hfetch Herr.
    cbn [search_boards].
    unfold bindM at 1. cbn [liftM]. rewrite Hbi.
    unfold bindM at 1. cbn [liftM Py.get].
    unfold bindM at 1. cbn [liftM]. rewrite Harch.
    unfold bindM at 1. rewrite Hfetch.
    unfold bindM at 1. cbn [liftM]. rewrite Herr. reflexivity.
  - intros d boards Hnarrow Hkey Hd Herr Hboards Harch.
    unfold cmd_search_cards. rewrite nothing_to_search_narrowing, Hnarrow.
    cbn [negb]. unfold search_all.
    unfold bindM at 1. unfold api_request, bindM at 1, get_api_key.
    rewrite Hkey. cbn [urlopen].
    change {| method := "GET"; path := "/boards"; params := []; body := None |}
      with boards_request.
    rewrite Hd. unfold bindM at 1. cbn [liftM Py.get]. rewrite Herr.
    unfold bindM at 1. cbn [liftM Py.get obind]. rewrite Hboards.
    cbn [Py.iter]. unfold bindM at 1.
    rewrite (search_boards_all_archived a fuel boards [] _ Harch).
    reflexivity.
Qed.

Lemma search_passes_over_witness :
  cmd_search_cards (label_args "Urgent") 3 (mock_world archived_only)
  = (Ok (), print no_results (with_sent (mock_world archived_only) [boards_request])).
Proof.
  apply (proj2 (proj2 (search_passes_over (label_args "Urgent") 3
                         (mock_world archived_only)))
           [("boards",
             JArr [JObj [("publicId", JStr "b1"); ("isArchived", JBool true)];
                   JObj [("BoardItem",
                          JObj [("publicId", JStr "b2");
                                ("isArchived", JBool true)])]])]
           [JObj [("publicId", JStr "b1"); ("isArchived", JBool true)];
            JObj [("BoardItem",
                   JObj [("publicId", JStr "b2"); ("isArchived", JBool true)])]]);
    try reflexivity.
  repeat constructor; eexists; (split; [reflexivity | reflexivity]).
Defined.

(** ** Errors of the WIP check *)



(** ** Column identifiers and limits *)

Lemma hash_truthy_not_none (cid : json) (k : Py.key) :
  Py.truthy cid = true -> Py.hash cid = Ok k -> k <> Py.KNone.
Proof. destruct cid; simpl; intros Ht Hk; try discriminate; congruence. Qed.

Lemma count_columns_no_none (cards : list json) :
  forall col_counts counts,
    count_columns cards col_counts = Ok counts ->
    col_counts !! Py.KNone = None -> counts !! Py.KNone = None.
Proof.
  induction cards as [|card cards IH]; intros col_counts counts H Hnone;
    cbn [count_columns] in H.
  - injection H as <-. exact Hnone.
  - destruct (get_card_field card "columnId") as [cid| |]; cbn [obind] in H;
      try discriminate H.
    destruct (Py.truthy cid) eqn:Ht; [|exact (IH _ _ H Hnone)].
    destruct (Py.hash cid) as [k| |] eqn:Hk; cbn [obind] in H;
      try discriminate H.
    apply (IH _ _ H). rewrite lookup_insert_ne; [exact Hnone|].
    exact (hash_truthy_not_none _ _ Ht Hk).
Qed.

(** X24.  The identifier of a column: a CARD column without a
    ["columnId"] key is counted and reported under its ["boardTitle"]; a
    column whose ["columnId"] is present but [null] does not fall back to
    the title: it is reported with a [null] identifier and, the counts
    coming from the counting loop, with no cards. *)
Theorem column_id_fallback (col_counts : gmap Py.key nat) (col_wrapper : json)
    (col : dict) :
  Py.get col_wrapper "ColumnItem" col_wrapper = Ok (JObj col) ->
  Py.lookup "type" col = Some (JStr "CARD") ->
  (forall title k,
      Py.lookup "columnId" col = None ->
      Py.lookup "boardTitle" col = Some title ->
      Py.hash title = Ok k ->
      column_id col = title
      /\ column_entry col_counts col_wrapper
         = (violations <- violations_of (default 0 (col_counts !! k))
                            (col_field col "minWIP") (col_field col "maxWIP");;
            Ok (Some (report_entry col (default 0 (col_counts !! k)) violations))))
  /\ (forall cards,
         Py.lookup "columnId" col = Some JNull ->
         count_columns cards ∅ = Ok col_counts ->
         column_id col = JNull
         /\ column_entry col_counts col_wrapper
            = (violations <- violations_of 0 (col_field col "minWIP")
                               (col_field col "maxWIP");;
               Ok (Some (report_entry col 0 violations)))).
Proof.
  intros Hcol Htype. split.
  - intros title k Hid Htitle Hk.
    assert (Hcid : column_id col = title).
    { unfold column_id, col_field. rewrite Hid, Htitle. reflexivity. }
    split; [exact Hcid|].
    rewrite (column_entry_card _ _ _ Hcol Htype), Hcid, Hk. reflexivity.
  - intros cards Hid Hcounts.
    assert (Hcid : column_id col = JNull).
    { unfold column_id. rewrite Hid. reflexivity. }
    split; [exact Hcid|].
    rewrite (column_entry_card _ _ _ Hcol Htype), Hcid. cbn [Py.hash obind].
    rewrite (count_columns_no_none cards ∅ col_counts Hcounts (lookup_empty _)).
    reflexivity.
Qed.

Lemma column_id_fallback_witness :
  let col := [("boardTitle", JStr "Doing"); ("type", JStr "CARD")] in
  column_entry {[Py.KStr "Doing" := 3]} (JObj col)
  = Ok (Some (report_entry col 3 []))
  /\ column_id col = JStr "Doing".
Proof.
  intros col.
  destruct (proj1 (column_id_fallback {[Py.KStr "Doing" := 3]} (JObj col) col
                     eq_refl eq_refl)
              (JStr "Doing") (Py.KStr "Doing") eq_refl eq_refl eq_refl)
    as [Hid Hentry].
  split; [|exact Hid]. rewrite Hentry. reflexivity.
Defined.

(** X25.  Two violations at once: for integer limits the entry lists both
    violations, ["over max"] first and ["under min"] second, exactly when
    the maximum is not 0 and the count lies strictly between the maximum
    and the minimum (limits that contradict each other); the script does not
    check the limits against each other. *)
Theorem violations_both (current : nat) (min_wip max_wip : Z) :
  exists violations,
    violations_of current (JNum min_wip) (JNum max_wip) = Ok violations
    /\ (length violations = 2
        <-> (max_wip <> 0 /\ max_wip < Z.of_nat current < min_wip)%Z)
    /\ (length violations = 2 ->
        violations = [over_max current max_wip; under_min current min_wip]).
Proof.
  exists (violations_if_nonzero current (Some min_wip) (Some max_wip)).
  split; [apply violations_of_thresholds; reflexivity|].
  unfold violations_if_nonzero.
  destruct (Z.eqb_spec max_wip 0) as [Hz|Hz];
    destruct (Z.ltb_spec max_wip (Z.of_nat current)) as [Hover|Hover];
    destruct (Z.ltb_spec (Z.of_nat current) min_wip) as [Hunder|Hunder];
    cbn; (split; [split; [intros H; try discriminate H; lia
                         | intros H; try reflexivity; lia]
                 | intros H; try discriminate H; reflexivity]).
Qed.

Example violations_both_sample :
  violations_of 3 (JNum 5) (JNum 2)
  = Ok [JStr "over max (3/2)"; JStr "under min (3/5)"].
Proof. vm_compute. reflexivity. Qed.
